(** * Mock and test-suite templates of the API test framework

    A shallow embedding of
      - [Api/test-framework/templates/mock_template.c] (call counters,
        the name dispatcher and the eleven [__wrap_] stubs), and
      - [Api/test-framework/templates/test_template.c] (the test table
        handed to the cmocka runner),
    followed by the properties proved about them.

    Conventions.  C integers are [Z]; every conversion the C code performs
    is written out ([to_int], [to_size_t], ...).  The data model is the
    usual one for the hosts this template targets: [int] is 32 bits,
    [size_t], pointers and cmocka's [LargestIntegralType] are 64 bits.
    ISO C leaves overflow of a signed [++] undefined; it is modelled here
    as two's-complement wrap-around.  Memory is a flat map from addresses
    to bytes and [NULL] is address 0.  cmocka itself is not part of the
    repository: it is an interface ([CMocka]) the stubs are parametric in. *)

From Stdlib Require Import ZArith List String Ascii Bool Lia.
From Stdlib Require Init.Byte.
Import ListNotations.
Local Open Scope string_scope.
Local Open Scope list_scope.
Local Open Scope Z_scope.

(* ================================================================= *)
(** ** Machine integers *)

Module CInt.

Definition INT_MAX : Z := 2147483647.
Definition INT_MIN : Z := -2147483648.

(** Conversion to [int]: reduction modulo 2^32 into [INT_MIN..INT_MAX]. *)
Definition to_int (z : Z) : Z := (z + 2 ^ 31) mod 2 ^ 32 - 2 ^ 31.

(** Conversion to a 64-bit unsigned type. *)
Definition to_u64 (z : Z) : Z := z mod 2 ^ 64.

Definition to_size_t : Z -> Z := to_u64.
Definition to_uintptr_t : Z -> Z := to_u64.

(** [x++] on an [int] lvalue holding [x]. *)
Definition int_incr (x : Z) : Z := to_int (x + 1).

Definition in_int (z : Z) : Prop := INT_MIN <= z <= INT_MAX.

End CInt.
Import CInt.

(* ================================================================= *)
(** ** Memory *)

Definition byte := Byte.byte.
Definition memory := Z -> byte.

Definition NULL : Z := 0.

(** [memcpy(dst, src, n)]: the [n] bytes at [src] are read from the memory
    before the call and stored at [dst]; nothing else changes.  (C leaves
    overlapping source and destination undefined; here the source is read
    as it was before the call.) *)
Definition memcpy (m : memory) (dst src n : Z) : memory :=
  fun a => if (dst <=? a) && (a <? dst + n) then m (src + (a - dst)) else m a.

(* ================================================================= *)
(** ** mock_template.c: the call counters *)

(** The anonymous struct of the static variable [call_counts]. *)
Record call_counts_t := mk_call_counts {
  i2c_open : Z;
  i2c_close : Z;
  i2c_write : Z;
  i2c_read : Z;
  uart_open : Z;
  uart_close : Z;
  uart_write : Z;
  uart_read : Z;
  spi_open : Z;
  spi_close : Z;
  spi_transfer : Z
}.

(** [memset(&call_counts, 0, sizeof(call_counts))]. *)
Definition zero_counts : call_counts_t :=
  mk_call_counts 0 0 0 0 0 0 0 0 0 0 0.

(** The statements [call_counts.<field>++], one per field. *)
Definition incr_i2c_open (cc : call_counts_t) : call_counts_t :=
  let (n_i2c_open, n_i2c_close, n_i2c_write, n_i2c_read, n_uart_open, n_uart_close,
       n_uart_write, n_uart_read, n_spi_open, n_spi_close, n_spi_transfer) := cc in
  mk_call_counts (int_incr n_i2c_open) n_i2c_close n_i2c_write n_i2c_read n_uart_open n_uart_close
    n_uart_write n_uart_read n_spi_open n_spi_close n_spi_transfer.
Definition incr_i2c_close (cc : call_counts_t) : call_counts_t :=
  let (n_i2c_open, n_i2c_close, n_i2c_write, n_i2c_read, n_uart_open, n_uart_close,
       n_uart_write, n_uart_read, n_spi_open, n_spi_close, n_spi_transfer) := cc in
  mk_call_counts n_i2c_open (int_incr n_i2c_close) n_i2c_write n_i2c_read n_uart_open n_uart_close
    n_uart_write n_uart_read n_spi_open n_spi_close n_spi_transfer.
Definition incr_i2c_write (cc : call_counts_t) : call_counts_t :=
  let (n_i2c_open, n_i2c_close, n_i2c_write, n_i2c_read, n_uart_open, n_uart_close,
       n_uart_write, n_uart_read, n_spi_open, n_spi_close, n_spi_transfer) := cc in
  mk_call_counts n_i2c_open n_i2c_close (int_incr n_i2c_write) n_i2c_read n_uart_open n_uart_close
    n_uart_write n_uart_read n_spi_open n_spi_close n_spi_transfer.
Definition incr_i2c_read (cc : call_counts_t) : call_counts_t :=
  let (n_i2c_open, n_i2c_close, n_i2c_write, n_i2c_read, n_uart_open, n_uart_close,
       n_uart_write, n_uart_read, n_spi_open, n_spi_close, n_spi_transfer) := cc in
  mk_call_counts n_i2c_open n_i2c_close n_i2c_write (int_incr n_i2c_read) n_uart_open n_uart_close
    n_uart_write n_uart_read n_spi_open n_spi_close n_spi_transfer.
Definition incr_uart_open (cc : call_counts_t) : call_counts_t :=
  let (n_i2c_open, n_i2c_close, n_i2c_write, n_i2c_read, n_uart_open, n_uart_close,
       n_uart_write, n_uart_read, n_spi_open, n_spi_close, n_spi_transfer) := cc in
  mk_call_counts n_i2c_open n_i2c_close n_i2c_write n_i2c_read (int_incr n_uart_open) n_uart_close
    n_uart_write n_uart_read n_spi_open n_spi_close n_spi_transfer.
Definition incr_uart_close (cc : call_counts_t) : call_counts_t :=
  let (n_i2c_open, n_i2c_close, n_i2c_write, n_i2c_read, n_uart_open, n_uart_close,
       n_uart_write, n_uart_read, n_spi_open, n_spi_close, n_spi_transfer) := cc in
  mk_call_counts n_i2c_open n_i2c_close n_i2c_write n_i2c_read n_uart_open (int_incr n_uart_close)
    n_uart_write n_uart_read n_spi_open n_spi_close n_spi_transfer.
Definition incr_uart_write (cc : call_counts_t) : call_counts_t :=
  let (n_i2c_open, n_i2c_close, n_i2c_write, n_i2c_read, n_uart_open, n_uart_close,
       n_uart_write, n_uart_read, n_spi_open, n_spi_close, n_spi_transfer) := cc in
  mk_call_counts n_i2c_open n_i2c_close n_i2c_write n_i2c_read n_uart_open n_uart_close
    (int_incr n_uart_write) n_uart_read n_spi_open n_spi_close n_spi_transfer.
Definition incr_uart_read (cc : call_counts_t) : call_counts_t :=
  let (n_i2c_open, n_i2c_close, n_i2c_write, n_i2c_read, n_uart_open, n_uart_close,
       n_uart_write, n_uart_read, n_spi_open, n_spi_close, n_spi_transfer) := cc in
  mk_call_counts n_i2c_open n_i2c_close n_i2c_write n_i2c_read n_uart_open n_uart_close
    n_uart_write (int_incr n_uart_read) n_spi_open n_spi_close n_spi_transfer.
Definition incr_spi_open (cc : call_counts_t) : call_counts_t :=
  let (n_i2c_open, n_i2c_close, n_i2c_write, n_i2c_read, n_uart_open, n_uart_close,
       n_uart_write, n_uart_read, n_spi_open, n_spi_close, n_spi_transfer) := cc in
  mk_call_counts n_i2c_open n_i2c_close n_i2c_write n_i2c_read n_uart_open n_uart_close
    n_uart_write n_uart_read (int_incr n_spi_open) n_spi_close n_spi_transfer.
Definition incr_spi_close (cc : call_counts_t) : call_counts_t :=
  let (n_i2c_open, n_i2c_close, n_i2c_write, n_i2c_read, n_uart_open, n_uart_close,
       n_uart_write, n_uart_read, n_spi_open, n_spi_close, n_spi_transfer) := cc in
  mk_call_counts n_i2c_open n_i2c_close n_i2c_write n_i2c_read n_uart_open n_uart_close
    n_uart_write n_uart_read n_spi_open (int_incr n_spi_close) n_spi_transfer.
Definition incr_spi_transfer (cc : call_counts_t) : call_counts_t :=
  let (n_i2c_open, n_i2c_close, n_i2c_write, n_i2c_read, n_uart_open, n_uart_close,
       n_uart_write, n_uart_read, n_spi_open, n_spi_close, n_spi_transfer) := cc in
  mk_call_counts n_i2c_open n_i2c_close n_i2c_write n_i2c_read n_uart_open n_uart_close
    n_uart_write n_uart_read n_spi_open n_spi_close (int_incr n_spi_transfer).

(* ================================================================= *)
(** ** The cmocka interface *)

(** What a call leaves behind for an observer: the parameter checks it
    asked cmocka to perform, the values cmocka handed back to it, and the
    text it printed. *)
Inductive event : Type :=
| EvCheck (func param : string) (value : Z)
| EvMock (func : string) (value : Z)
| EvPrintf (text : string).

(** A call either returns to its caller or is cut short by cmocka failing
    the running test ([_fail], a [longjmp] back into the runner). *)
Inductive outcome (A : Type) : Type :=
| Returned (a : A)
| TestFailed.
Arguments Returned {A} a.
Arguments TestFailed {A}.

(** cmocka keeps the values queued by [will_return] and the expectations
    queued by [expect_*] in a state of its own, [S].
    - [cm_mock func s] is [_mock(func, ...)]: the next value queued for
      [func] as a [LargestIntegralType], or [None] when there is none and
      the test is failed.
    - [cm_check_expected func param value m s] is
      [_check_expected(func, param, ..., value)]: [true] when the next
      expectation queued for [param] of [func] accepts [value] (it may
      read the memory [m], as [expect_memory] does), [false] when the
      test is failed. *)
Class CMocka (S : Type) : Type := {
  cm_mock : string -> S -> option Z * S;
  cm_check_expected : string -> string -> Z -> memory -> S -> bool * S
}.

(* ================================================================= *)
(** ** mock_template.c *)

Section MockTemplate.

Context {S : Type} {CM : CMocka S}.

(** Everything a stub can touch: the static [call_counts], the memory
    its pointer arguments refer to, and cmocka's state. *)
Record World : Type := mk_World {
  counts : call_counts_t;
  mem : memory;
  cm : S
}.

Record Run (A : Type) : Type := mk_Run {
  result : outcome A;
  final : World;
  emitted : list event
}.
Arguments mk_Run {A}.
Arguments result {A}.
Arguments final {A}.
Arguments emitted {A}.

Definition M (A : Type) : Type := World -> Run A.

Definition ret {A} (a : A) : M A :=
  fun w => mk_Run (Returned a) w [].

Definition bind {A B} (m : M A) (k : A -> M B) : M B :=
  fun w =>
    let r := m w in
    match result r with
    | Returned a =>
        let r' := k a (final r) in
        mk_Run (result r') (final r') (emitted r ++ emitted r')
    | TestFailed => mk_Run TestFailed (final r) (emitted r)
    end.

Notation "x <- m ;; k" := (bind m (fun x => k))
  (at level 61, m at next level, right associativity).
Notation "m ;; k" := (bind m (fun _ => k))
  (at level 61, right associativity).

Definition modify_counts (f : call_counts_t -> call_counts_t) : M unit :=
  fun w => mk_Run (Returned tt) (mk_World (f (counts w)) (mem w) (cm w)) [].

Definition do_memcpy (dst src n : Z) : M unit :=
  fun w =>
    mk_Run (Returned tt) (mk_World (counts w) (memcpy (mem w) dst src n) (cm w)) [].

Definition printf (text : string) : M unit :=
  fun w => mk_Run (Returned tt) w [EvPrintf text].

(** *** cmocka's functions and macros, as the stubs use them *)

Definition _mock (func : string) : M Z :=
  fun w =>
    match cm_mock func (cm w) with
    | (Some v, s') =>
        mk_Run (Returned v) (mk_World (counts w) (mem w) s') [EvMock func v]
    | (None, s') =>
        mk_Run TestFailed (mk_World (counts w) (mem w) s') []
    end.

Definition _check_expected (func param : string) (value : Z) : M unit :=
  fun w =>
    let (ok, s') := cm_check_expected func param value (mem w) (cm w) in
    mk_Run (if ok then Returned tt else TestFailed)
           (mk_World (counts w) (mem w) s')
           [EvCheck func param value].

(** [cast_to_largest_integral_type] and
    [cast_ptr_to_largest_integral_type]. *)
Definition cast_to_largest_integral_type (v : Z) : Z := to_u64 v.
Definition cast_ptr_to_largest_integral_type (p : Z) : Z :=
  to_u64 (to_uintptr_t p).

(** [mock_type(int)], [mock_type(size_t)], [mock_ptr_type(uint8_t * )];
    [func] is the [__func__] of the stub using the macro. *)
Definition mock_type_int (func : string) : M Z :=
  v <- _mock func ;; ret (to_int v).
Definition mock_type_size_t (func : string) : M Z :=
  v <- _mock func ;; ret (to_size_t v).
Definition mock_ptr_type (func : string) : M Z :=
  v <- _mock func ;; ret (to_uintptr_t v).

(** [check_expected(parameter)] and [check_expected_ptr(parameter)];
    [param] is the stringified parameter name. *)
Definition check_expected (func param : string) (value : Z) : M unit :=
  _check_expected func param (cast_to_largest_integral_type value).
Definition check_expected_ptr (func param : string) (p : Z) : M unit :=
  _check_expected func param (cast_ptr_to_largest_integral_type p).

(** A pointer used as a condition. *)
Definition nonnull (p : Z) : bool := negb (p =? NULL).

(** *** Mock interface initialization *)

Definition mock_reset_counters : M unit :=
  modify_counts (fun _ => zero_counts).

Definition mock_init : M unit :=
  mock_reset_counters.

Definition mock_cleanup : M unit :=
  ret tt.

(** *** Mock call counter functions *)

Definition newline : string := String (ascii_of_nat 10) EmptyString.

Definition unknown_function_warning (function_name : string) : string :=
  ("Warning: Unknown function '" ++ function_name
     ++ "' in mock_function_called" ++ newline)%string.

Definition mock_function_called (function_name : string) (expected_calls : Z)
  : M bool :=
  fun w =>
    let cc := counts w in
    if (function_name =? "i2c_open")%string then
      ret (i2c_open cc =? expected_calls) w
    else if (function_name =? "i2c_close")%string then
      ret (i2c_close cc =? expected_calls) w
    else if (function_name =? "i2c_write")%string then
      ret (i2c_write cc =? expected_calls) w
    else if (function_name =? "i2c_read")%string then
      ret (i2c_read cc =? expected_calls) w
    else if (function_name =? "uart_open")%string then
      ret (uart_open cc =? expected_calls) w
    else if (function_name =? "uart_close")%string then
      ret (uart_close cc =? expected_calls) w
    else if (function_name =? "uart_write")%string then
      ret (uart_write cc =? expected_calls) w
    else if (function_name =? "uart_read")%string then
      ret (uart_read cc =? expected_calls) w
    else if (function_name =? "spi_open")%string then
      ret (spi_open cc =? expected_calls) w
    else if (function_name =? "spi_close")%string then
      ret (spi_close cc =? expected_calls) w
    else if (function_name =? "spi_transfer")%string then
      ret (spi_transfer cc =? expected_calls) w
    else
      (printf (unknown_function_warning function_name) ;; ret false) w.

(** *** Mock I2C interface *)

Definition __wrap_i2c_open (bus addr : Z) : M Z :=
  modify_counts incr_i2c_open ;;
  mock_type_int "__wrap_i2c_open".

Definition __wrap_i2c_close (fd : Z) : M Z :=
  modify_counts incr_i2c_close ;;
  ret 0.

Definition __wrap_i2c_write (fd cmd data data_len : Z) : M Z :=
  modify_counts incr_i2c_write ;;
  check_expected "__wrap_i2c_write" "cmd" cmd ;;
  check_expected "__wrap_i2c_write" "data_len" data_len ;;
  (if nonnull data && (0 <? data_len)
   then check_expected_ptr "__wrap_i2c_write" "data" data
   else ret tt) ;;
  mock_type_int "__wrap_i2c_write".

Definition __wrap_i2c_read (fd cmd rx_buffer rx_len : Z) : M Z :=
  modify_counts incr_i2c_read ;;
  check_expected "__wrap_i2c_read" "cmd" cmd ;;
  check_expected "__wrap_i2c_read" "rx_len" rx_len ;;
  (if nonnull rx_buffer && (0 <? rx_len)
   then
     mock_data <- mock_ptr_type "__wrap_i2c_read" ;;
     if nonnull mock_data
     then do_memcpy rx_buffer mock_data rx_len
     else ret tt
   else ret tt) ;;
  mock_type_int "__wrap_i2c_read".

(** *** Mock UART interface *)

Definition __wrap_uart_open (device baudrate : Z) : M Z :=
  modify_counts incr_uart_open ;;
  mock_type_int "__wrap_uart_open".

Definition __wrap_uart_close (fd : Z) : M Z :=
  modify_counts incr_uart_close ;;
  ret 0.

Definition __wrap_uart_write (fd data len : Z) : M Z :=
  modify_counts incr_uart_write ;;
  check_expected "__wrap_uart_write" "len" len ;;
  (if nonnull data && (0 <? len)
   then check_expected_ptr "__wrap_uart_write" "data" data
   else ret tt) ;;
  mock_type_int "__wrap_uart_write".

(** The [return copy_len;] inside the two [if]s leaves the function; the
    final [return mock_type(int);] is reached from both [else] sides.
    [copy_len] is a [size_t] and the function returns [int]. *)
Definition __wrap_uart_read (fd buffer len timeout_ms : Z) : M Z :=
  modify_counts incr_uart_read ;;
  check_expected "__wrap_uart_read" "len" len ;;
  check_expected "__wrap_uart_read" "timeout_ms" timeout_ms ;;
  if nonnull buffer && (0 <? len)
  then
    mock_data <- mock_ptr_type "__wrap_uart_read" ;;
    if nonnull mock_data
    then
      mock_len <- mock_type_size_t "__wrap_uart_read" ;;
      let copy_len := if len <? mock_len then len else mock_len in
      do_memcpy buffer mock_data copy_len ;;
      ret (to_int copy_len)
    else mock_type_int "__wrap_uart_read"
  else mock_type_int "__wrap_uart_read".

(** *** Mock SPI interface *)

Definition __wrap_spi_open (device mode speed_hz : Z) : M Z :=
  modify_counts incr_spi_open ;;
  mock_type_int "__wrap_spi_open".

Definition __wrap_spi_close (fd : Z) : M Z :=
  modify_counts incr_spi_close ;;
  ret 0.

Definition __wrap_spi_transfer (fd tx_buf rx_buf len : Z) : M Z :=
  modify_counts incr_spi_transfer ;;
  check_expected "__wrap_spi_transfer" "len" len ;;
  (if nonnull tx_buf && (0 <? len)
   then check_expected_ptr "__wrap_spi_transfer" "tx_buf" tx_buf
   else ret tt) ;;
  (if nonnull rx_buf && (0 <? len)
   then
     mock_data <- mock_ptr_type "__wrap_spi_transfer" ;;
     if nonnull mock_data
     then do_memcpy rx_buf mock_data len
     else ret tt
   else ret tt) ;;
  mock_type_int "__wrap_spi_transfer".

End MockTemplate.

Arguments World S : clear implicits.
Arguments Run S A : clear implicits.
Arguments M S A : clear implicits.
Arguments mk_World {S}.
Arguments mk_Run {S A}.
Arguments result {S A}.
Arguments final {S A}.
Arguments emitted {S A}.

(** *** Intercepted calls and counters by name

    One constructor per [__wrap_] stub, carrying its arguments, and one
    per field of [call_counts]; they let a statement range over all
    eleven stubs and all eleven fields. *)

Inductive counter : Type :=
| C_i2c_open | C_i2c_close | C_i2c_write | C_i2c_read
| C_uart_open | C_uart_close | C_uart_write | C_uart_read
| C_spi_open | C_spi_close | C_spi_transfer.

Definition get (g : counter) (cc : call_counts_t) : Z :=
  match g with
  | C_i2c_open => i2c_open cc
  | C_i2c_close => i2c_close cc
  | C_i2c_write => i2c_write cc
  | C_i2c_read => i2c_read cc
  | C_uart_open => uart_open cc
  | C_uart_close => uart_close cc
  | C_uart_write => uart_write cc
  | C_uart_read => uart_read cc
  | C_spi_open => spi_open cc
  | C_spi_close => spi_close cc
  | C_spi_transfer => spi_transfer cc
  end.

Definition counter_eqb (g h : counter) : bool :=
  match g, h with
  | C_i2c_open, C_i2c_open | C_i2c_close, C_i2c_close
  | C_i2c_write, C_i2c_write | C_i2c_read, C_i2c_read
  | C_uart_open, C_uart_open | C_uart_close, C_uart_close
  | C_uart_write, C_uart_write | C_uart_read, C_uart_read
  | C_spi_open, C_spi_open | C_spi_close, C_spi_close
  | C_spi_transfer, C_spi_transfer => true
  | _, _ => false
  end.

Inductive call : Type :=
| Call_i2c_open (bus addr : Z)
| Call_i2c_close (fd : Z)
| Call_i2c_write (fd cmd data data_len : Z)
| Call_i2c_read (fd cmd rx_buffer rx_len : Z)
| Call_uart_open (device baudrate : Z)
| Call_uart_close (fd : Z)
| Call_uart_write (fd data len : Z)
| Call_uart_read (fd buffer len timeout_ms : Z)
| Call_spi_open (device mode speed_hz : Z)
| Call_spi_close (fd : Z)
| Call_spi_transfer (fd tx_buf rx_buf len : Z).

Definition counter_of (c : call) : counter :=
  match c with
  | Call_i2c_open _ _ => C_i2c_open
  | Call_i2c_close _ => C_i2c_close
  | Call_i2c_write _ _ _ _ => C_i2c_write
  | Call_i2c_read _ _ _ _ => C_i2c_read
  | Call_uart_open _ _ => C_uart_open
  | Call_uart_close _ => C_uart_close
  | Call_uart_write _ _ _ => C_uart_write
  | Call_uart_read _ _ _ _ => C_uart_read
  | Call_spi_open _ _ _ => C_spi_open
  | Call_spi_close _ => C_spi_close
  | Call_spi_transfer _ _ _ _ => C_spi_transfer
  end.

Definition run_call {S : Type} {CM : CMocka S} (c : call) : M S Z :=
  match c with
  | Call_i2c_open bus addr => __wrap_i2c_open bus addr
  | Call_i2c_close fd => __wrap_i2c_close fd
  | Call_i2c_write fd cmd data data_len => __wrap_i2c_write fd cmd data data_len
  | Call_i2c_read fd cmd rx_buffer rx_len => __wrap_i2c_read fd cmd rx_buffer rx_len
  | Call_uart_open device baudrate => __wrap_uart_open device baudrate
  | Call_uart_close fd => __wrap_uart_close fd
  | Call_uart_write fd data len => __wrap_uart_write fd data len
  | Call_uart_read fd buffer len timeout_ms => __wrap_uart_read fd buffer len timeout_ms
  | Call_spi_open device mode speed_hz => __wrap_spi_open device mode speed_hz
  | Call_spi_close fd => __wrap_spi_close fd
  | Call_spi_transfer fd tx_buf rx_buf len => __wrap_spi_transfer fd tx_buf rx_buf len
  end.

(** The increment each stub applies to its own counter. *)
Definition incr_of (g : counter) : call_counts_t -> call_counts_t :=
  match g with
  | C_i2c_open => incr_i2c_open
  | C_i2c_close => incr_i2c_close
  | C_i2c_write => incr_i2c_write
  | C_i2c_read => incr_i2c_read
  | C_uart_open => incr_uart_open
  | C_uart_close => incr_uart_close
  | C_uart_write => incr_uart_write
  | C_uart_read => incr_uart_read
  | C_spi_open => incr_spi_open
  | C_spi_close => incr_spi_close
  | C_spi_transfer => incr_spi_transfer
  end.

(** A computation that leaves [call_counts] alone. *)
Definition keeps_counts {S : Type} {A : Type} (m : M S A) : Prop :=
  forall w, counts (final (m w)) = counts w.

(** [mock_function_called] answers a query on [name] from the counter
    [field]: it returns whether that counter equals the expected count,
    and changes and prints nothing. *)
Definition answers_from {S : Type} (name : string) (field : call_counts_t -> Z)
  : Prop :=
  forall (n : Z) (w : World S),
    mock_function_called name n w
    = mk_Run (Returned (field (counts w) =? n)) w []
    /\ (result (mock_function_called name n w) = Returned true
        <-> field (counts w) = n).

(** [emit evs r]: the run [r] preceded by the events [evs]. *)
Definition emit {S : Type} {A : Type} (evs : list event) (r : Run S A) : Run S A :=
  mk_Run (result r) (final r) (evs ++ emitted r).

Definition is_check (e : event) : bool :=
  match e with
  | EvCheck _ _ _ => true
  | _ => false
  end.

(** The parameter checks among the events of a call, in order. *)
Definition checks_of (evs : list event) : list event := filter is_check evs.

(** A computation whose parameter checks are [l]: all of [l], in this
    order, when it returns; the first few of [l] when cmocka fails the
    test inside it. *)
Definition checks_exactly {S : Type} {A : Type} (l : list event) (m : M S A)
  : Prop :=
  forall w,
    match result (m w) with
    | Returned _ => checks_of (emitted (m w)) = l
    | TestFailed => exists rest, l = checks_of (emitted (m w)) ++ rest
    end.

(** A computation that never asks cmocka to check a parameter named
    [param]. *)
Definition not_checking (param : string) (e : event) : Prop :=
  match e with
  | EvCheck _ p _ => p <> param
  | _ => True
  end.
Definition never_checks {S : Type} {A : Type} (param : string) (m : M S A)
  : Prop :=
  forall w, Forall (not_checking param) (emitted (m w)).

(** A computation whose return value, when it returns, is accounted for
    by the last events of the call: [Q tail r] relates the final events
    [tail] to the value [r] returned. *)
Definition returns_with {S : Type} (Q : list event -> Z -> Prop) (m : M S Z)
  : Prop :=
  forall w r,
    result (m w) = Returned r ->
    exists evs tail, emitted (m w) = evs ++ tail /\ Q tail r.

(** The value returned is the one cmocka handed over last for [func],
    converted to [int]. *)
Definition mocked_value (func : string) (tail : list event) (r : Z) : Prop :=
  exists v, tail = [EvMock func v] /\ r = to_int v.

(** The value returned is the number of bytes copied: the smaller of
    [len] and the length cmocka handed over after a non-null pointer,
    converted to [int]. *)
Definition copied_count (func : string) (len : Z) (tail : list event) (r : Z)
  : Prop :=
  exists p mock_len,
    tail = [EvMock func p; EvMock func mock_len]
    /\ to_uintptr_t p <> NULL
    /\ r = to_int (Z.min len (to_size_t mock_len)).

(** The reading of "the returned integer is a value supplied by the test
    case": it is [mock_type(int)] of the stub's own function. *)
Definition returns_mocked {S : Type} (func : string) (m : M S Z) : Prop :=
  returns_with (mocked_value func) m.

(** The names [mock_function_called] knows. *)
Definition known_names : list string :=
  [ "i2c_open"; "i2c_close"; "i2c_write"; "i2c_read";
    "uart_open"; "uart_close"; "uart_write"; "uart_read";
    "spi_open"; "spi_close"; "spi_transfer" ].

(** *** Scripts: what cmocka answers to a run of checks and of mocks

    [cm_checks func ps m s] performs the checks [ps] (parameter name and
    value) in order and stops at the first one that fails;
    [cm_mocks func n s] takes [n] queued values. *)

Fixpoint cm_checks {S : Type} {CM : CMocka S}
    (func : string) (ps : list (string * Z)) (m : memory) (s : S) : bool * S :=
  match ps with
  | [] => (true, s)
  | (param, value) :: ps' =>
      let (ok, s') := cm_check_expected func param value m s in
      if ok then cm_checks func ps' m s' else (false, s')
  end.

Fixpoint cm_mocks {S : Type} {CM : CMocka S}
    (func : string) (n : nat) (s : S) : option (list Z) * S :=
  match n with
  | O => (Some [], s)
  | Datatypes.S n' =>
      match cm_mock func s with
      | (Some v, s') =>
          let (vs, s'') := cm_mocks func n' s' in
          (option_map (cons v) vs, s'')
      | (None, s') => (None, s')
      end
  end.

(* ================================================================= *)
(** ** A reference cmocka

    [will_return(function, value)] and [expect_value(function, parameter,
    value)] with their count of one: each queued entry serves one call,
    oldest first, and a request that finds no entry fails the test. *)

Record fifo : Type := mk_fifo {
  will_return_queue : list (string * Z);
  expect_queue : list (string * string * Z)
}.

Fixpoint take_value (func : string) (q : list (string * Z))
  : option Z * list (string * Z) :=
  match q with
  | [] => (None, [])
  | (f, v) :: q' =>
      if (f =? func)%string then (Some v, q')
      else let (r, q'') := take_value func q' in (r, (f, v) :: q'')
  end.

Fixpoint take_expect (func param : string) (value : Z)
    (q : list (string * string * Z)) : bool * list (string * string * Z) :=
  match q with
  | [] => (false, [])
  | (f, p, v) :: q' =>
      if ((f =? func) && (p =? param))%string then (v =? value, q')
      else let (r, q'') := take_expect func param value q' in (r, (f, p, v) :: q'')
  end.

#[export] Instance fifo_cmocka : CMocka fifo := {
  cm_mock func s :=
    let (r, q) := take_value func (will_return_queue s) in
    (r, mk_fifo q (expect_queue s));
  cm_check_expected func param value _ s :=
    let (r, q) := take_expect func param value (expect_queue s) in
    (r, mk_fifo (will_return_queue s) q)
}.

(** [will_return] and [expect_value] as a test case calls them. *)
Definition will_return (func : string) (value : Z) (s : fifo) : fifo :=
  mk_fifo (will_return_queue s ++ [(func, to_u64 value)]) (expect_queue s).
Definition expect_value (func param : string) (value : Z) (s : fifo) : fifo :=
  mk_fifo (will_return_queue s) (expect_queue s ++ [(func, param, to_u64 value)]).

Definition fifo_empty : fifo := mk_fifo [] [].

(** A memory whose byte at address [a] is [a mod 256]. *)
Definition ramp_memory : memory :=
  fun a => match Byte.of_N (Z.to_N (a mod 256)) with
           | Some b => b
           | None => Byte.x00
           end.

(* ================================================================= *)
(** ** test_template.c *)

Module TestTemplate.

(** Function designators stored in the test table. *)
Inductive fixture_fn : Type :=
| fn_global_setup | fn_global_teardown | fn_test_setup | fn_test_teardown.

Inductive test_fn : Type :=
| fn_test_init_success | fn_test_init_failure
| fn_test_function1_success | fn_test_function2_success
| fn_test_function3_error_handling
| fn_test_write_error | fn_test_read_error.

(** [assert_true(c)]: the test fails when [c] is zero. *)
Definition assert_true (c : Z) : outcome unit :=
  if c =? 0 then TestFailed else Returned tt.

(** *** Setup and teardown *)
Definition global_setup (state : Z) : Z := 0.
Definition global_teardown (state : Z) : Z := 0.
Definition test_setup (state : Z) : Z := 0.
Definition test_teardown (state : Z) : Z := 0.

(** *** Test functions: placeholders *)
Definition test_init_success (state : Z) : outcome unit := assert_true 1.
Definition test_init_failure (state : Z) : outcome unit := assert_true 1.
Definition test_function1_success (state : Z) : outcome unit := assert_true 1.
Definition test_function2_success (state : Z) : outcome unit := assert_true 1.
Definition test_function3_error_handling (state : Z) : outcome unit := assert_true 1.
Definition test_write_error (state : Z) : outcome unit := assert_true 1.
Definition test_read_error (state : Z) : outcome unit := assert_true 1.

Definition fixture_body (f : fixture_fn) : Z -> Z :=
  match f with
  | fn_global_setup => global_setup
  | fn_global_teardown => global_teardown
  | fn_test_setup => test_setup
  | fn_test_teardown => test_teardown
  end.

Definition test_body (f : test_fn) : Z -> outcome unit :=
  match f with
  | fn_test_init_success => test_init_success
  | fn_test_init_failure => test_init_failure
  | fn_test_function1_success => test_function1_success
  | fn_test_function2_success => test_function2_success
  | fn_test_function3_error_handling => test_function3_error_handling
  | fn_test_write_error => test_write_error
  | fn_test_read_error => test_read_error
  end.

(** The stringification [#f] of a test function. *)
Definition test_name (f : test_fn) : string :=
  match f with
  | fn_test_init_success => "test_init_success"
  | fn_test_init_failure => "test_init_failure"
  | fn_test_function1_success => "test_function1_success"
  | fn_test_function2_success => "test_function2_success"
  | fn_test_function3_error_handling => "test_function3_error_handling"
  | fn_test_write_error => "test_write_error"
  | fn_test_read_error => "test_read_error"
  end.

(** cmocka's [struct CMUnitTest]; a null function pointer is [None]. *)
Record CMUnitTest : Type := mk_CMUnitTest {
  name : string;
  test_func : test_fn;
  setup_func : option fixture_fn;
  teardown_func : option fixture_fn;
  initial_state : Z
}.

(** The macro [cmocka_unit_test_setup_teardown(f, setup, teardown)]. *)
Definition cmocka_unit_test_setup_teardown
    (f : test_fn) (setup teardown : fixture_fn) : CMUnitTest :=
  mk_CMUnitTest (test_name f) f (Some setup) (Some teardown) NULL.

(** The array [tests] of [main]. *)
Definition tests : list CMUnitTest :=
  [ cmocka_unit_test_setup_teardown fn_test_init_success fn_test_setup fn_test_teardown;
    cmocka_unit_test_setup_teardown fn_test_init_failure fn_test_setup fn_test_teardown;
    cmocka_unit_test_setup_teardown fn_test_function1_success fn_test_setup fn_test_teardown;
    cmocka_unit_test_setup_teardown fn_test_function2_success fn_test_setup fn_test_teardown;
    cmocka_unit_test_setup_teardown fn_test_function3_error_handling fn_test_setup fn_test_teardown;
    cmocka_unit_test_setup_teardown fn_test_write_error fn_test_setup fn_test_teardown;
    cmocka_unit_test_setup_teardown fn_test_read_error fn_test_setup fn_test_teardown ].

Section Runner.

(** cmocka's runner, [cmocka_run_group_tests(tests, group_setup,
    group_teardown)]: external to the repository. *)
Variable cmocka_run_group_tests :
  list CMUnitTest -> option fixture_fn -> option fixture_fn -> Z.

Definition main : Z :=
  cmocka_run_group_tests tests (Some fn_global_setup) (Some fn_global_teardown).

End Runner.

End TestTemplate.

(* ================================================================= *)
(** ** Sample scenarios

    Test-case preambles written with the reference cmocka, in the order a
    test would call [expect_value] and [will_return], and the world a
    stub then runs in. *)

Definition script (steps : list (fifo -> fifo)) : fifo :=
  fold_left (fun s step => step s) steps fifo_empty.

Definition sample_counts : call_counts_t :=
  mk_call_counts 1 2 3 4 5 6 7 8 9 10 11.

Definition sample_world (s : fifo) : World fifo :=
  mk_World sample_counts ramp_memory s.

(** A read of 4 bytes at command 0x10; the mock data sits at 0x2000. *)
Definition i2c_read_script : fifo :=
  script [ expect_value "__wrap_i2c_read" "cmd" 16;
           expect_value "__wrap_i2c_read" "rx_len" 4;
           will_return "__wrap_i2c_read" 8192;
           will_return "__wrap_i2c_read" 0 ].

(** A write of 2 bytes at command 0x01 from a buffer at 0x1000. *)
Definition i2c_write_script : fifo :=
  script [ expect_value "__wrap_i2c_write" "cmd" 1;
           expect_value "__wrap_i2c_write" "data_len" 2;
           expect_value "__wrap_i2c_write" "data" 4096;
           will_return "__wrap_i2c_write" 0 ].

(** A UART read of up to 4 bytes; 2 bytes of mock data sit at 0x2000. *)
Definition uart_read_script : fifo :=
  script [ expect_value "__wrap_uart_read" "len" 4;
           expect_value "__wrap_uart_read" "timeout_ms" 100;
           will_return "__wrap_uart_read" 8192;
           will_return "__wrap_uart_read" 2 ].

(** A UART read of 2^31 bytes; 2^31 bytes of mock data sit at 2^32. *)
Definition uart_read_2g_script : fifo :=
  script [ expect_value "__wrap_uart_read" "len" (2 ^ 31);
           expect_value "__wrap_uart_read" "timeout_ms" 100;
           will_return "__wrap_uart_read" (2 ^ 32);
           will_return "__wrap_uart_read" (2 ^ 31) ].

(** A test that queues 7 as the return value of [i2c_close]. *)
Definition i2c_close_script : fifo :=
  script [ will_return "__wrap_i2c_close" 7 ].

(** A test that queues 5 as the return value of [i2c_open]. *)
Definition i2c_open_script : fifo :=
  script [ will_return "__wrap_i2c_open" 5 ].

(** A runner that only counts the tests it is handed. *)
Definition counting_runner
    (tests : list TestTemplate.CMUnitTest)
    (group_setup group_teardown : option TestTemplate.fixture_fn) : Z :=
  Z.of_nat (List.length tests).

(* ================================================================= *)
(** ** Vocabulary for whole-stub properties *)

(** The [__func__] of the stub behind a call: the name under which cmocka
    files its queued values and expectations. *)
Definition func_of (c : call) : string :=
  match c with
  | Call_i2c_open _ _ => "__wrap_i2c_open"
  | Call_i2c_close _ => "__wrap_i2c_close"
  | Call_i2c_write _ _ _ _ => "__wrap_i2c_write"
  | Call_i2c_read _ _ _ _ => "__wrap_i2c_read"
  | Call_uart_open _ _ => "__wrap_uart_open"
  | Call_uart_close _ => "__wrap_uart_close"
  | Call_uart_write _ _ _ => "__wrap_uart_write"
  | Call_uart_read _ _ _ _ => "__wrap_uart_read"
  | Call_spi_open _ _ _ => "__wrap_spi_open"
  | Call_spi_close _ => "__wrap_spi_close"
  | Call_spi_transfer _ _ _ _ => "__wrap_spi_transfer"
  end.

(** The name under which [mock_function_called] answers for a counter. *)
Definition name_of (g : counter) : string :=
  match g with
  | C_i2c_open => "i2c_open"
  | C_i2c_close => "i2c_close"
  | C_i2c_write => "i2c_write"
  | C_i2c_read => "i2c_read"
  | C_uart_open => "uart_open"
  | C_uart_close => "uart_close"
  | C_uart_write => "uart_write"
  | C_uart_read => "uart_read"
  | C_spi_open => "spi_open"
  | C_spi_close => "spi_close"
  | C_spi_transfer => "spi_transfer"
  end.

(** A sequence of intercepted calls, one after the other.  [call_counts]
    is static and cmocka's state is its own, so both carry over from one
    call to the next whether the call returned or the test was failed
    inside it. *)
Fixpoint run_calls {S : Type} {CM : CMocka S} (cs : list call) (w : World S)
  : World S :=
  match cs with
  | [] => w
  | c :: cs' => run_calls cs' (final (run_call c w))
  end.

(** How many calls of [cs] go to the stub that owns counter [g]. *)
Definition calls_to (g : counter) (cs : list call) : nat :=
  List.length (filter (fun c => counter_eqb (counter_of c) g) cs).

(** The receive buffer a call hands to its stub: the addresses from the
    buffer pointer up to the length passed with it. *)
Definition rx_region (c : call) (a : Z) : Prop :=
  match c with
  | Call_i2c_read _ _ rx_buffer rx_len => rx_buffer <= a < rx_buffer + rx_len
  | Call_uart_read _ buffer len _ => buffer <= a < buffer + len
  | Call_spi_transfer _ _ rx_buf len => rx_buf <= a < rx_buf + len
  | _ => False
  end.

(** A computation that stores to memory only at addresses in [P]. *)
Definition writes_within {S : Type} {A : Type} (P : Z -> Prop) (m : M S A)
  : Prop :=
  forall w a, ~ P a -> mem (final (m w)) a = mem w a.

Definition is_mock (e : event) : bool :=
  match e with
  | EvMock _ _ => true
  | _ => false
  end.

(** The values cmocka handed over during a call, in order. *)
Definition mocks_of (evs : list event) : list event := filter is_mock evs.

(** A computation that takes [n] queued values from cmocka when it
    returns, and at most [n] when the test is failed inside it. *)
Definition takes {S : Type} {A : Type} (n : nat) (m : M S A) : Prop :=
  forall w,
    match result (m w) with
    | Returned _ => List.length (mocks_of (emitted (m w))) = n
    | TestFailed => (List.length (mocks_of (emitted (m w))) <= n)%nat
    end.

(** The number of [will_return] values a call uses up: none for the
    [close] stubs, one for a return value, and one more for the data
    pointer (and, for [uart_read], what follows it) when the call brings
    a receive buffer. *)
Definition values_taken (c : call) : nat :=
  match c with
  | Call_i2c_close _ | Call_uart_close _ | Call_spi_close _ => 0
  | Call_i2c_read _ _ buf len
  | Call_uart_read _ buf len _
  | Call_spi_transfer _ _ buf len =>
      if nonnull buf && (0 <? len) then 2 else 1
  | _ => 1
  end.

(** The stubs whose return statement is [return mock_type(int);] on every
    path. *)
Definition returns_mock_type_int (c : call) : bool :=
  match c with
  | Call_i2c_close _ | Call_uart_close _ | Call_spi_close _ => false
  | Call_uart_read _ _ _ _ => false
  | _ => true
  end.

(** The parameter checks a call asks of cmocka, in source order: the
    stringified parameter and the value as [check_expected] or
    [check_expected_ptr] passes it on. *)
Definition checks_asked (c : call) : list (string * Z) :=
  match c with
  | Call_i2c_write _ cmd data data_len =>
      [("cmd", to_u64 cmd); ("data_len", to_u64 data_len)]
        ++ (if nonnull data && (0 <? data_len)
            then [("data", to_u64 (to_uintptr_t data))] else [])
  | Call_i2c_read _ cmd _ rx_len =>
      [("cmd", to_u64 cmd); ("rx_len", to_u64 rx_len)]
  | Call_uart_write _ data len =>
      [("len", to_u64 len)]
        ++ (if nonnull data && (0 <? len)
            then [("data", to_u64 (to_uintptr_t data))] else [])
  | Call_uart_read _ _ len timeout_ms =>
      [("len", to_u64 len); ("timeout_ms", to_u64 timeout_ms)]
  | Call_spi_transfer _ tx_buf _ len =>
      [("len", to_u64 len)]
        ++ (if nonnull tx_buf && (0 <? len)
            then [("tx_buf", to_u64 (to_uintptr_t tx_buf))] else [])
  | _ => []
  end.

Definition check_events (c : call) : list event :=
  map (fun pv => EvCheck (func_of c) (fst pv) (snd pv)) (checks_asked c).

(** Whether cmocka serves a call from state [s] with memory [m]: it
    accepts every check the call asks for, in order, and then holds the
    queued values the call takes. *)
Definition cmocka_serves {S : Type} {CM : CMocka S}
    (c : call) (m : memory) (s : S) : bool :=
  let (ok, s1) := cm_checks (func_of c) (checks_asked c) m s in
  if ok
  then match fst (cm_mocks (func_of c) (values_taken c) s1) with
       | Some _ => true
       | None => false
       end
  else false.

(** Further scenarios: a test that queues -1 as the return value of
    [uart_open]; a UART read whose mock data has length 0; an I2C read
    whose test forgot to queue the return value; an I2C write whose
    command the test did not expect. *)
Definition uart_open_error_script : fifo :=
  script [ will_return "__wrap_uart_open" (-1) ].

Definition uart_read_empty_script : fifo :=
  script [ expect_value "__wrap_uart_read" "len" 4;
           expect_value "__wrap_uart_read" "timeout_ms" 100;
           will_return "__wrap_uart_read" 8192;
           will_return "__wrap_uart_read" 0 ].

Definition i2c_read_no_return_script : fifo :=
  script [ expect_value "__wrap_i2c_read" "cmd" 16;
           expect_value "__wrap_i2c_read" "rx_len" 4;
           will_return "__wrap_i2c_read" 8192 ].

Definition i2c_write_wrong_cmd_script : fifo :=
  script [ expect_value "__wrap_i2c_write" "cmd" 2;
           expect_value "__wrap_i2c_write" "data_len" 2;
           expect_value "__wrap_i2c_write" "data" 4096;
           will_return "__wrap_i2c_write" 0 ].

(* ================================================================= *)
(** ** Properties *)

(** *** Machine integers *)

Lemma to_int_small (z : Z) : in_int z -> to_int z = z.
Proof.
  unfold in_int, to_int, INT_MIN, INT_MAX. intros Hz.
  rewrite Z.mod_small; lia.
Qed.

Lemma int_incr_exact (x : Z) : INT_MIN <= x < INT_MAX -> int_incr x = x + 1.
Proof.
  unfold int_incr. intros Hx. apply to_int_small. unfold in_int. lia.
Qed.


(** *** Memory *)

Lemma memcpy_inside (m : memory) (dst src n i : Z) :
  0 <= i < n -> memcpy m dst src n (dst + i) = m (src + i).
Proof.
  intros Hi. unfold memcpy.
  replace ((dst <=? dst + i) && (dst + i <? dst + n)) with true.
  - f_equal. lia.
  - symmetry. apply andb_true_iff. split; [apply Z.leb_le | apply Z.ltb_lt]; lia.
Qed.

Lemma memcpy_outside (m : memory) (dst src n a : Z) :
  ~ (dst <= a < dst + n) -> memcpy m dst src n a = m a.
Proof.
  intros Ha. unfold memcpy.
  destruct (dst <=? a) eqn:E1; [| reflexivity].
  destruct (a <? dst + n) eqn:E2; [| reflexivity].
  apply Z.leb_le in E1. apply Z.ltb_lt in E2. lia.
Qed.

Lemma nonnull_true (p : Z) : nonnull p = true <-> p <> NULL.
Proof.
  unfold nonnull. rewrite negb_true_iff. apply Z.eqb_neq.
Qed.

(** *** The counters *)

Lemma get_zero_counts (g : counter) : get g zero_counts = 0.
Proof. destruct g; reflexivity. Qed.

Lemma get_incr_of (g h : counter) (cc : call_counts_t) :
  get h (incr_of g cc) =
  if counter_eqb g h then int_incr (get h cc) else get h cc.
Proof. destruct cc, g, h; reflexivity. Qed.

Lemma counter_eqb_eq (g h : counter) : counter_eqb g h = true <-> g = h.
Proof. destruct g, h; simpl; split; intros H; congruence. Qed.

Section Properties.

Context {S : Type} {CM : CMocka S}.

Implicit Types (w : World S) (cc : call_counts_t).

(** *** The monad *)

Lemma bind_modify_counts {A} (f : call_counts_t -> call_counts_t)
    (k : unit -> M S A) w :
  bind (modify_counts f) k w = k tt (mk_World (f (counts w)) (mem w) (cm w)).
Proof.
  unfold bind, modify_counts. simpl.
  destruct (k tt _); reflexivity.
Qed.



Lemma keeps_counts_ret {A} (a : A) : keeps_counts (S:=S) (ret a).
Proof. intros w. reflexivity. Qed.

Lemma keeps_counts_bind {A B} (m : M S A) (k : A -> M S B) :
  keeps_counts m -> (forall a, keeps_counts (k a)) -> keeps_counts (bind m k).
Proof.
  intros Hm Hk w. unfold bind.
  destruct (result (m w)) as [a |]; simpl.
  - rewrite Hk. apply Hm.
  - apply Hm.
Qed.

Lemma keeps_counts_mock func : keeps_counts (_mock func).
Proof.
  intros w. unfold _mock.
  destruct (cm_mock func (cm w)) as [[v |] s']; reflexivity.
Qed.

Lemma keeps_counts_check func param value :
  keeps_counts (_check_expected func param value).
Proof.
  intros w. unfold _check_expected.
  destruct (cm_check_expected func param value (mem w) (cm w)); reflexivity.
Qed.

Lemma keeps_counts_memcpy dst src n :
  keeps_counts (S:=S) (do_memcpy dst src n).
Proof. intros w. reflexivity. Qed.

Lemma keeps_counts_if {A} (b : bool) (m1 m2 : M S A) :
  keeps_counts m1 -> keeps_counts m2 -> keeps_counts (if b then m1 else m2).
Proof. destruct b; auto. Qed.

Lemma counts_after_incr {A} (f : call_counts_t -> call_counts_t)
    (k : unit -> M S A) w :
  keeps_counts (k tt) ->
  counts (final (bind (modify_counts f) k w)) = f (counts w).
Proof. intros Hk. rewrite bind_modify_counts. apply Hk. Qed.

(** *** Running a stub against known answers of cmocka *)

Lemma run_incr {A} (f : call_counts_t -> call_counts_t) (k : unit -> M S A)
    cc (m : memory) (s : S) :
  bind (modify_counts f) k (mk_World cc m s) = k tt (mk_World (f cc) m s).
Proof. apply bind_modify_counts. Qed.

Lemma run_ret {A B} (a : A) (k : A -> M S B) w : bind (ret a) k w = k a w.
Proof. unfold bind, ret. simpl. destruct (k a w); reflexivity. Qed.

Lemma run_memcpy {A} (dst src n : Z) (k : unit -> M S A)
    cc (m : memory) (s : S) :
  bind (do_memcpy dst src n) k (mk_World cc m s)
  = k tt (mk_World cc (memcpy m dst src n) s).
Proof. unfold bind, do_memcpy. simpl. destruct (k tt _); reflexivity. Qed.

Lemma run_check_pass {A} func param v (k : unit -> M S A)
    cc (m : memory) (s s' : S) :
  cm_check_expected func param v m s = (true, s') ->
  bind (_check_expected func param v) k (mk_World cc m s)
  = emit [EvCheck func param v] (k tt (mk_World cc m s')).
Proof. intros E. unfold bind, _check_expected. simpl. rewrite E. reflexivity. Qed.


Lemma run_mock_some {A} func v (k : Z -> M S A) cc (m : memory) (s s' : S) :
  cm_mock func s = (Some v, s') ->
  bind (_mock func) k (mk_World cc m s)
  = emit [EvMock func v] (k v (mk_World cc m s')).
Proof. intros E. unfold bind, _mock. simpl. rewrite E. reflexivity. Qed.

Lemma run_mock_none {A} func (k : Z -> M S A) cc (m : memory) (s s' : S) :
  cm_mock func s = (None, s') ->
  bind (_mock func) k (mk_World cc m s) = mk_Run TestFailed (mk_World cc m s') [].
Proof. intros E. unfold bind, _mock. simpl. rewrite E. reflexivity. Qed.

Lemma bind_assoc {A B C} (m : M S A) (f : A -> M S B) (g : B -> M S C) w :
  bind (bind m f) g w = bind m (fun a => bind (f a) g) w.
Proof.
  unfold bind. destruct (m w) as [[a |] w1 e1]; simpl; [| reflexivity].
  destruct (f a w1) as [[b |] w2 e2]; simpl; [| reflexivity].
  rewrite app_assoc. reflexivity.
Qed.

Lemma emit_mk_Run {A} (evs evs' : list event) (o : outcome A) w :
  emit evs (mk_Run o w evs') = mk_Run o w (evs ++ evs').
Proof. reflexivity. Qed.

Lemma cm_checks_cons func param v ps (m : memory) (s s' : S) :
  cm_checks func ((param, v) :: ps) m s = (true, s') ->
  exists s1, cm_check_expected func param v m s = (true, s1)
             /\ cm_checks func ps m s1 = (true, s').
Proof.
  simpl. destruct (cm_check_expected func param v m s) as [[|] s1].
  - intros H. exists s1. split; [reflexivity | exact H].
  - discriminate.
Qed.

Lemma cm_checks_nil func (m : memory) (s s' : S) :
  cm_checks func [] m s = (true, s') -> s' = s.
Proof. simpl. congruence. Qed.

Lemma cm_mocks_succ func n v vs (s s' : S) :
  cm_mocks func (Datatypes.S n) s = (Some (v :: vs), s') ->
  exists s1, cm_mock func s = (Some v, s1)
             /\ cm_mocks func n s1 = (Some vs, s').
Proof.
  simpl. destruct (cm_mock func s) as [[v' |] s1]; [| discriminate].
  destruct (cm_mocks func n s1) as [[vs' |] s2] eqn:E; simpl; [| discriminate].
  intros H. injection H as -> -> ->. exists s1. split; [reflexivity | exact E].
Qed.

Lemma cm_mocks_zero func vs (s s' : S) :
  cm_mocks func 0 s = (Some vs, s') -> vs = [] /\ s' = s.
Proof. simpl. intros H. injection H as <- <-. split; reflexivity. Qed.

(** *** Which checks a computation performs *)

Lemma checks_of_app (e1 e2 : list event) :
  checks_of (e1 ++ e2) = checks_of e1 ++ checks_of e2.
Proof. apply filter_app. Qed.

Lemma checks_exactly_ret {A} (a : A) : checks_exactly (S:=S) [] (ret a).
Proof. intros w. reflexivity. Qed.

Lemma checks_exactly_incr f : checks_exactly (S:=S) [] (modify_counts f).
Proof. intros w. reflexivity. Qed.

Lemma checks_exactly_memcpy dst src n :
  checks_exactly (S:=S) [] (do_memcpy dst src n).
Proof. intros w. reflexivity. Qed.

Lemma checks_exactly_mock func : checks_exactly [] (_mock func).
Proof.
  intros w. unfold _mock.
  destruct (cm_mock func (cm w)) as [[v |] s']; simpl.
  - reflexivity.
  - exists []. reflexivity.
Qed.

Lemma checks_exactly_check func param v :
  checks_exactly [EvCheck func param v] (_check_expected func param v).
Proof.
  intros w. unfold _check_expected.
  destruct (cm_check_expected func param v (mem w) (cm w)) as [[|] s']; simpl.
  - reflexivity.
  - exists []. reflexivity.
Qed.

Lemma checks_exactly_bind {A B} (l l1 l2 : list event)
    (m : M S A) (k : A -> M S B) :
  checks_exactly l1 m -> (forall a, checks_exactly l2 (k a)) ->
  l = l1 ++ l2 ->
  checks_exactly l (bind m k).
Proof.
  intros Hm Hk -> w. unfold bind. specialize (Hm w).
  destruct (result (m w)) as [a |]; simpl.
  - specialize (Hk a (final (m w))).
    destruct (result (k a (final (m w)))); rewrite checks_of_app, Hm.
    + rewrite Hk. reflexivity.
    + destruct Hk as [rest ->]. exists rest. apply app_assoc.
  - destruct Hm as [rest ->]. exists (rest ++ l2). symmetry. apply app_assoc.
Qed.

Lemma checks_exactly_if {A} (l : list event) (b : bool) (m1 m2 : M S A) :
  checks_exactly l m1 -> checks_exactly l m2 ->
  checks_exactly l (if b then m1 else m2).
Proof. destruct b; auto. Qed.

(** *** Which parameters a computation never checks *)

Lemma never_checks_ret {A} param (a : A) : never_checks (S:=S) param (ret a).
Proof. intros w. constructor. Qed.

Lemma never_checks_incr param f : never_checks (S:=S) param (modify_counts f).
Proof. intros w. constructor. Qed.

Lemma never_checks_memcpy param dst src n :
  never_checks (S:=S) param (do_memcpy dst src n).
Proof. intros w. constructor. Qed.

Lemma never_checks_mock param func : never_checks param (_mock func).
Proof.
  intros w. unfold _mock.
  destruct (cm_mock func (cm w)) as [[v |] s']; simpl; repeat constructor.
Qed.

Lemma never_checks_check param func p v :
  p <> param -> never_checks param (_check_expected func p v).
Proof.
  intros Hp w. unfold _check_expected.
  destruct (cm_check_expected func p v (mem w) (cm w)) as [ok s']; simpl.
  repeat constructor. exact Hp.
Qed.

Lemma never_checks_bind {A B} param (m : M S A) (k : A -> M S B) :
  never_checks param m -> (forall a, never_checks param (k a)) ->
  never_checks param (bind m k).
Proof.
  intros Hm Hk w. unfold bind. specialize (Hm w).
  destruct (result (m w)) as [a |]; simpl.
  - apply Forall_app. split; [exact Hm | apply Hk].
  - exact Hm.
Qed.

Lemma never_checks_if {A} param (b : bool) (m1 m2 : M S A) :
  never_checks param m1 -> never_checks param m2 ->
  never_checks param (if b then m1 else m2).
Proof. destruct b; auto. Qed.

(** *** Where a return value comes from *)

Lemma returns_with_bind {A} (Q : list event -> Z -> Prop)
    (m : M S A) (k : A -> M S Z) :
  (forall a, returns_with Q (k a)) -> returns_with Q (bind m k).
Proof.
  intros Hk w r. unfold bind.
  destruct (result (m w)) as [a |]; simpl; [| discriminate].
  intros H. destruct (Hk a _ _ H) as (evs & tail & -> & HQ).
  exists (emitted (m w) ++ evs), tail. split; [apply app_assoc | exact HQ].
Qed.

Lemma returns_with_weaken (Q Q' : list event -> Z -> Prop) (m : M S Z) :
  (forall tail r, Q tail r -> Q' tail r) ->
  returns_with Q m -> returns_with Q' m.
Proof.
  intros HQ Hm w r H. destruct (Hm w r H) as (evs & tail & E & Ht).
  exists evs, tail. split; [exact E | apply HQ, Ht].
Qed.

Lemma returns_mocked_mock_type_int func :
  returns_mocked func (mock_type_int func).
Proof.
  intros w r. unfold mock_type_int, bind, _mock, ret.
  destruct (cm_mock func (cm w)) as [[v |] s']; simpl; [| discriminate].
  intros H. injection H as <-. exists [], [EvMock func v].
  split; [reflexivity | exists v; split; reflexivity].
Qed.

Lemma returns_mocked_bind {A} func (m : M S A) (k : A -> M S Z) :
  (forall a, returns_mocked func (k a)) -> returns_mocked func (bind m k).
Proof. apply returns_with_bind. Qed.

Lemma min_as_conditional (x y : Z) : (if x <? y then x else y) = Z.min x y.
Proof. destruct (Z.ltb_spec x y); lia. Qed.

End Properties.

Create HintDb frame.
#[export] Hint Resolve keeps_counts_ret keeps_counts_bind keeps_counts_mock
  keeps_counts_check keeps_counts_memcpy keeps_counts_if : frame.
#[export] Hint Unfold mock_type_int mock_type_size_t mock_ptr_type
  check_expected check_expected_ptr : frame.

Create HintDb checks.
#[export] Hint Resolve never_checks_ret never_checks_incr never_checks_memcpy
  never_checks_mock never_checks_bind never_checks_if : checks.
#[export] Hint Extern 1 (never_checks _ (_check_expected _ _ _)) =>
  apply never_checks_check; discriminate : checks.
#[export] Hint Unfold mock_type_int mock_type_size_t mock_ptr_type
  check_expected check_expected_ptr : checks.

Ltac unfold_stubs :=
  unfold __wrap_i2c_open, __wrap_i2c_close, __wrap_i2c_write, __wrap_i2c_read,
    __wrap_uart_open, __wrap_uart_close, __wrap_uart_write, __wrap_uart_read,
    __wrap_spi_open, __wrap_spi_close, __wrap_spi_transfer.

Ltac unfold_macros :=
  unfold mock_type_int, mock_type_size_t, mock_ptr_type,
    check_expected, check_expected_ptr,
    cast_to_largest_integral_type, cast_ptr_to_largest_integral_type.

(** Split what is known of cmocka's answers into one fact per request. *)
Ltac open_script :=
  repeat match goal with
    | H : cm_checks _ (_ :: _) _ _ = (true, _) |- _ =>
        apply cm_checks_cons in H; destruct H as (? & ? & H)
    | H : cm_checks _ [] _ _ = (true, _) |- _ =>
        apply cm_checks_nil in H; subst
    | H : cm_mocks _ (Datatypes.S _) _ = (Some (_ :: _), _) |- _ =>
        apply cm_mocks_succ in H; destruct H as (? & ? & H)
    | H : cm_mocks _ O _ = (Some _, _) |- _ =>
        apply cm_mocks_zero in H; destruct H as [_ ->]
    end.

(** Run a stub forward, answering each request from the hypotheses. *)
Ltac run_stub :=
  unfold_stubs; unfold_macros;
  repeat first
    [ rewrite run_incr
    | rewrite bind_assoc
    | rewrite run_ret
    | rewrite run_memcpy
    | erewrite run_check_pass by eassumption
    | erewrite run_mock_some by eassumption
    | rewrite emit_mk_Run ];
  try reflexivity.

(** Collect the checks of a stub, statement by statement. *)
Ltac solve_checks :=
  unfold_macros; cbv iota;
  first
    [ apply checks_exactly_ret
    | apply checks_exactly_incr
    | apply checks_exactly_memcpy
    | apply checks_exactly_mock
    | apply checks_exactly_check
    | eapply checks_exactly_if; solve_checks
    | eapply checks_exactly_bind;
      [ solve_checks | intros; solve_checks | simpl; reflexivity ] ].

Section Claims.

Context {S : Type} {CM : CMocka S}.

Implicit Types (w : World S).

Lemma counts_run_call (c : call) w :
  counts (final (run_call c w)) = incr_of (counter_of c) (counts w).
Proof.
  destruct c; cbn [run_call counter_of incr_of];
    unfold __wrap_i2c_open, __wrap_i2c_close, __wrap_i2c_write, __wrap_i2c_read,
      __wrap_uart_open, __wrap_uart_close, __wrap_uart_write, __wrap_uart_read,
      __wrap_spi_open, __wrap_spi_close, __wrap_spi_transfer;
    apply counts_after_incr;
    autounfold with frame; auto 20 with frame.
Qed.

Lemma answers_from_intro (name : string) (field : call_counts_t -> Z) :
  (forall n w, mock_function_called name n w
               = mk_Run (Returned (field (counts w) =? n)) w []) ->
  answers_from (S:=S) name field.
Proof.
  intros H n w. split; [apply H |].
  rewrite H. simpl. split.
  - intros E. injection E as E. apply Z.eqb_eq, E.
  - intros E. f_equal. apply Z.eqb_eq, E.
Qed.

(** C1. For every integer [n] and each of the eleven names,
    [mock_function_called(name, n)] returns true exactly when the counter
    of [call_counts] that bears that name equals [n]; the query changes
    no state and prints nothing.  The table below is the fixed mapping
    from names to counters. *)
Theorem mock_function_called_known :
  answers_from (S:=S) "i2c_open" i2c_open
  /\ answers_from (S:=S) "i2c_close" i2c_close
  /\ answers_from (S:=S) "i2c_write" i2c_write
  /\ answers_from (S:=S) "i2c_read" i2c_read
  /\ answers_from (S:=S) "uart_open" uart_open
  /\ answers_from (S:=S) "uart_close" uart_close
  /\ answers_from (S:=S) "uart_write" uart_write
  /\ answers_from (S:=S) "uart_read" uart_read
  /\ answers_from (S:=S) "spi_open" spi_open
  /\ answers_from (S:=S) "spi_close" spi_close
  /\ answers_from (S:=S) "spi_transfer" spi_transfer.
Proof.
  repeat match goal with |- _ /\ _ => split end;
    apply answers_from_intro; intros n w; reflexivity.
Qed.

(** C8. For a name that is none of the eleven, [mock_function_called]
    prints its warning and returns false, whatever the expected count
    and the counters; the state is unchanged. *)
Theorem mock_function_called_unknown (name : string) (n : Z) w :
  ~ In name known_names ->
  mock_function_called name n w
  = mk_Run (Returned false) w [EvPrintf (unknown_function_warning name)].
Proof.
  intros Hname. unfold mock_function_called.
  repeat match goal with
         | |- context [String.eqb name ?k] =>
             destruct (String.eqb_spec name k) as [-> | _];
             [exfalso; apply Hname; simpl; tauto |]
         end.
  reflexivity.
Qed.

(** C9. [mock_init] and [mock_reset_counters] are the same operation:
    each returns normally, sets every field of [call_counts] to zero and
    touches nothing else; after either, [mock_function_called(name, 0)]
    is true for every known name; resetting twice is resetting once. *)
Theorem mock_init_reset_equivalent w :
  mock_init w = mock_reset_counters w
  /\ mock_reset_counters w
     = mk_Run (Returned tt) (mk_World zero_counts (mem w) (cm w)) []
  /\ (forall g, get g (counts (final (mock_reset_counters w))) = 0)
  /\ (forall name, In name known_names ->
        result (mock_function_called name 0 (final (mock_init w)))
        = Returned true
        /\ result (mock_function_called name 0 (final (mock_reset_counters w)))
           = Returned true)
  /\ mock_reset_counters (final (mock_reset_counters w))
     = mock_reset_counters w.
Proof.
  split; [reflexivity |]. split; [reflexivity |].
  split; [intros g; apply get_zero_counts |].
  split; [| reflexivity].
  intros name Hname. simpl in Hname.
  repeat (destruct Hname as [<- | Hname]; [split; reflexivity |]).
  destruct Hname.
Qed.

(** C10. [mock_cleanup] returns normally and changes nothing, so every
    query of [mock_function_called] has the same answer after it as
    before it. *)
Theorem mock_cleanup_frame w :
  mock_cleanup w = mk_Run (Returned tt) w []
  /\ forall name n,
       mock_function_called name n (final (mock_cleanup w))
       = mock_function_called name n w.
Proof. split; reflexivity. Qed.

(** C2. Every intercepted call, whatever its arguments, the counters and
    cmocka's answers, and whether it returns or the test is failed
    inside it, performs [++] on the counter of its own function and
    leaves the other ten fields of [call_counts] as they were.  [++] is
    the [int] increment: exactly one more whenever the counter is below
    [INT_MAX]. *)
Theorem wrap_call_increments_own_counter (c : call) (g : counter) w :
  get g (counts (final (run_call c w)))
  = (if counter_eqb (counter_of c) g
     then int_incr (get g (counts w))
     else get g (counts w))
  /\ (g <> counter_of c ->
      get g (counts (final (run_call c w))) = get g (counts w))
  /\ (INT_MIN <= get (counter_of c) (counts w) < INT_MAX ->
      get (counter_of c) (counts (final (run_call c w)))
      = get (counter_of c) (counts w) + 1).
Proof.
  rewrite !counts_run_call, !get_incr_of. repeat split.
  - intros Hg. destruct (counter_eqb (counter_of c) g) eqn:E; [| reflexivity].
    apply counter_eqb_eq in E. congruence.
  - intros Hr.
    replace (counter_eqb (counter_of c) (counter_of c)) with true
      by (symmetry; apply counter_eqb_eq; reflexivity).
    apply int_incr_exact, Hr.
Qed.


(** *** The stubs, run against a cmocka that accepts every check and has
    the values asked for *)

Lemma i2c_open_run bus addr cc (m : memory) (s s' : S) v :
  cm_mock "__wrap_i2c_open" s = (Some v, s') ->
  __wrap_i2c_open bus addr (mk_World cc m s)
  = mk_Run (Returned (to_int v)) (mk_World (incr_i2c_open cc) m s')
           [EvMock "__wrap_i2c_open" v].
Proof. intros H. run_stub. Qed.

Lemma uart_open_run device baudrate cc (m : memory) (s s' : S) v :
  cm_mock "__wrap_uart_open" s = (Some v, s') ->
  __wrap_uart_open device baudrate (mk_World cc m s)
  = mk_Run (Returned (to_int v)) (mk_World (incr_uart_open cc) m s')
           [EvMock "__wrap_uart_open" v].
Proof. intros H. run_stub. Qed.

Lemma spi_open_run device mode speed_hz cc (m : memory) (s s' : S) v :
  cm_mock "__wrap_spi_open" s = (Some v, s') ->
  __wrap_spi_open device mode speed_hz (mk_World cc m s)
  = mk_Run (Returned (to_int v)) (mk_World (incr_spi_open cc) m s')
           [EvMock "__wrap_spi_open" v].
Proof. intros H. run_stub. Qed.




Lemma i2c_write_run fd cmd data data_len cc (m : memory) (s s1 s2 : S) r :
  let func := "__wrap_i2c_write" in
  let checked := nonnull data && (0 <? data_len) in
  cm_checks func
    ([("cmd", to_u64 cmd); ("data_len", to_u64 data_len)]
       ++ (if checked then [("data", to_u64 (to_uintptr_t data))] else []))
    m s = (true, s1) ->
  cm_mocks func 1 s1 = (Some [r], s2) ->
  __wrap_i2c_write fd cmd data data_len (mk_World cc m s)
  = mk_Run (Returned (to_int r)) (mk_World (incr_i2c_write cc) m s2)
      ([EvCheck func "cmd" (to_u64 cmd); EvCheck func "data_len" (to_u64 data_len)]
         ++ (if checked then [EvCheck func "data" (to_u64 (to_uintptr_t data))]
             else [])
         ++ [EvMock func r]).
Proof.
  intros func checked. subst func checked. unfold_stubs.
  destruct (nonnull data && (0 <? data_len)); simpl app;
    intros H1 H2; open_script; run_stub.
Qed.

Lemma uart_write_run fd data len cc (m : memory) (s s1 s2 : S) r :
  let func := "__wrap_uart_write" in
  let checked := nonnull data && (0 <? len) in
  cm_checks func
    ([("len", to_u64 len)]
       ++ (if checked then [("data", to_u64 (to_uintptr_t data))] else []))
    m s = (true, s1) ->
  cm_mocks func 1 s1 = (Some [r], s2) ->
  __wrap_uart_write fd data len (mk_World cc m s)
  = mk_Run (Returned (to_int r)) (mk_World (incr_uart_write cc) m s2)
      ([EvCheck func "len" (to_u64 len)]
         ++ (if checked then [EvCheck func "data" (to_u64 (to_uintptr_t data))]
             else [])
         ++ [EvMock func r]).
Proof.
  intros func checked. subst func checked. unfold_stubs.
  destruct (nonnull data && (0 <? len)); simpl app;
    intros H1 H2; open_script; run_stub.
Qed.

Lemma i2c_read_run fd cmd rx_buffer rx_len cc (m : memory) (s s1 s2 : S) p r :
  let func := "__wrap_i2c_read" in
  let wanted := nonnull rx_buffer && (0 <? rx_len) in
  cm_checks func [("cmd", to_u64 cmd); ("rx_len", to_u64 rx_len)] m s
  = (true, s1) ->
  cm_mocks func (if wanted then 2 else 1)%nat s1
  = (Some (if wanted then [p; r] else [r]), s2) ->
  __wrap_i2c_read fd cmd rx_buffer rx_len (mk_World cc m s)
  = mk_Run (Returned (to_int r))
      (mk_World (incr_i2c_read cc)
         (if wanted && nonnull (to_uintptr_t p)
          then memcpy m rx_buffer (to_uintptr_t p) rx_len else m)
         s2)
      ([EvCheck func "cmd" (to_u64 cmd); EvCheck func "rx_len" (to_u64 rx_len)]
         ++ (if wanted then [EvMock func p] else [])
         ++ [EvMock func r]).
Proof.
  intros func wanted. subst func wanted. unfold_stubs.
  destruct (nonnull rx_buffer && (0 <? rx_len)); simpl app; simpl andb;
    intros H1 H2; open_script; run_stub.
  destruct (nonnull (to_uintptr_t p)); run_stub.
Qed.

Lemma spi_transfer_run fd tx_buf rx_buf len cc (m : memory) (s s1 s2 : S) p r :
  let func := "__wrap_spi_transfer" in
  let checked := nonnull tx_buf && (0 <? len) in
  let wanted := nonnull rx_buf && (0 <? len) in
  cm_checks func
    ([("len", to_u64 len)]
       ++ (if checked then [("tx_buf", to_u64 (to_uintptr_t tx_buf))] else []))
    m s = (true, s1) ->
  cm_mocks func (if wanted then 2 else 1)%nat s1
  = (Some (if wanted then [p; r] else [r]), s2) ->
  __wrap_spi_transfer fd tx_buf rx_buf len (mk_World cc m s)
  = mk_Run (Returned (to_int r))
      (mk_World (incr_spi_transfer cc)
         (if wanted && nonnull (to_uintptr_t p)
          then memcpy m rx_buf (to_uintptr_t p) len else m)
         s2)
      ([EvCheck func "len" (to_u64 len)]
         ++ (if checked then [EvCheck func "tx_buf" (to_u64 (to_uintptr_t tx_buf))]
             else [])
         ++ (if wanted then [EvMock func p] else [])
         ++ [EvMock func r]).
Proof.
  intros func checked wanted. subst func checked wanted. unfold_stubs.
  destruct (nonnull tx_buf && (0 <? len));
    destruct (nonnull rx_buf && (0 <? len)); simpl app; simpl andb;
    intros H1 H2; open_script; run_stub;
    destruct (nonnull (to_uintptr_t p)); run_stub.
Qed.

Lemma uart_read_run_copy fd buffer len timeout_ms cc (m : memory)
    (s s1 s2 : S) p mock_len :
  let func := "__wrap_uart_read" in
  let copy_len := Z.min len (to_size_t mock_len) in
  cm_checks func [("len", to_u64 len); ("timeout_ms", to_u64 timeout_ms)] m s
  = (true, s1) ->
  nonnull buffer && (0 <? len) = true ->
  cm_mocks func 2 s1 = (Some [p; mock_len], s2) ->
  nonnull (to_uintptr_t p) = true ->
  __wrap_uart_read fd buffer len timeout_ms (mk_World cc m s)
  = mk_Run (Returned (to_int copy_len))
      (mk_World (incr_uart_read cc)
         (memcpy m buffer (to_uintptr_t p) copy_len) s2)
      [EvCheck func "len" (to_u64 len);
       EvCheck func "timeout_ms" (to_u64 timeout_ms);
       EvMock func p; EvMock func mock_len].
Proof.
  intros func copy_len H1 Hw H2 Hp. subst func copy_len. unfold_stubs.
  rewrite Hw. open_script. run_stub.
  rewrite Hp. run_stub.
  cbv zeta. rewrite min_as_conditional. run_stub.
Qed.

Lemma uart_read_run_mocked fd buffer len timeout_ms cc (m : memory)
    (s s1 s2 : S) p r :
  let func := "__wrap_uart_read" in
  let wanted := nonnull buffer && (0 <? len) in
  cm_checks func [("len", to_u64 len); ("timeout_ms", to_u64 timeout_ms)] m s
  = (true, s1) ->
  cm_mocks func (if wanted then 2 else 1)%nat s1
  = (Some (if wanted then [p; r] else [r]), s2) ->
  wanted && nonnull (to_uintptr_t p) = false ->
  __wrap_uart_read fd buffer len timeout_ms (mk_World cc m s)
  = mk_Run (Returned (to_int r)) (mk_World (incr_uart_read cc) m s2)
      ([EvCheck func "len" (to_u64 len);
        EvCheck func "timeout_ms" (to_u64 timeout_ms)]
         ++ (if wanted then [EvMock func p] else [])
         ++ [EvMock func r]).
Proof.
  intros func wanted. subst func wanted. unfold_stubs.
  destruct (nonnull buffer && (0 <? len)); simpl app; simpl andb;
    intros H1 H2 Hp; open_script; run_stub.
  rewrite Hp. run_stub.
Qed.

Lemma copying_true (buf len p : Z) :
  nonnull buf && (0 <? len) && nonnull (to_uintptr_t p) = true
  <-> buf <> NULL /\ 0 < len /\ to_uintptr_t p <> NULL.
Proof.
  rewrite !andb_true_iff, !nonnull_true, Z.ltb_lt. tauto.
Qed.

Lemma copying_false (buf len p : Z) :
  nonnull buf && (0 <? len) && nonnull (to_uintptr_t p) = false
  <-> buf = NULL \/ len <= 0 \/ to_uintptr_t p = NULL.
Proof.
  rewrite !andb_false_iff. unfold nonnull. rewrite !negb_false_iff, !Z.eqb_eq, Z.ltb_ge.
  tauto.
Qed.

(** C4. [__wrap_i2c_read], when cmocka accepts the checks of [cmd] and
    [rx_len] and has the values asked for: with a non-null [rx_buffer],
    [rx_len > 0] and a non-null injected pointer [p], the [rx_len] bytes
    at [p] are copied to [rx_buffer] (no length of the mock data is
    consulted) and nothing else in memory changes; in every case,
    copying or not, the call returns the injected value [r] read with
    [mock_type(int)].  [__wrap_spi_transfer] does the same with [rx_buf]
    and [len]. *)
Theorem read_stubs_copy_unclamped :
  (forall fd cmd rx_buffer rx_len w s1 s2 p r,
      let func := "__wrap_i2c_read" in
      let wanted := nonnull rx_buffer && (0 <? rx_len) in
      let run := __wrap_i2c_read fd cmd rx_buffer rx_len w in
      cm_checks func [("cmd", to_u64 cmd); ("rx_len", to_u64 rx_len)]
        (mem w) (cm w) = (true, s1) ->
      cm_mocks func (if wanted then 2 else 1)%nat s1
      = (Some (if wanted then [p; r] else [r]), s2) ->
      result run = Returned (to_int r)
      /\ (rx_buffer <> NULL -> 0 < rx_len -> to_uintptr_t p <> NULL ->
          (forall i, 0 <= i < rx_len ->
                     mem (final run) (rx_buffer + i) = mem w (to_uintptr_t p + i))
          /\ (forall a, ~ (rx_buffer <= a < rx_buffer + rx_len) ->
                        mem (final run) a = mem w a))
      /\ (rx_buffer = NULL \/ rx_len <= 0 \/ to_uintptr_t p = NULL ->
          mem (final run) = mem w))
  /\ (forall fd tx_buf rx_buf len w s1 s2 p r,
      let func := "__wrap_spi_transfer" in
      let checked := nonnull tx_buf && (0 <? len) in
      let wanted := nonnull rx_buf && (0 <? len) in
      let run := __wrap_spi_transfer fd tx_buf rx_buf len w in
      cm_checks func
        ([("len", to_u64 len)]
           ++ (if checked then [("tx_buf", to_u64 (to_uintptr_t tx_buf))] else []))
        (mem w) (cm w) = (true, s1) ->
      cm_mocks func (if wanted then 2 else 1)%nat s1
      = (Some (if wanted then [p; r] else [r]), s2) ->
      result run = Returned (to_int r)
      /\ (rx_buf <> NULL -> 0 < len -> to_uintptr_t p <> NULL ->
          (forall i, 0 <= i < len ->
                     mem (final run) (rx_buf + i) = mem w (to_uintptr_t p + i))
          /\ (forall a, ~ (rx_buf <= a < rx_buf + len) ->
                        mem (final run) a = mem w a))
      /\ (rx_buf = NULL \/ len <= 0 \/ to_uintptr_t p = NULL ->
          mem (final run) = mem w)).
Proof.
  split.
  - intros fd cmd rx_buffer rx_len [cc m s] s1 s2 p r func wanted run H1 H2.
    subst run. simpl in H1.
    rewrite (i2c_read_run fd cmd rx_buffer rx_len cc m s s1 s2 p r H1 H2).
    simpl. split; [reflexivity |]. split.
    + intros Hb Hl Hp.
      replace (nonnull rx_buffer && (0 <? rx_len) && nonnull (to_uintptr_t p))
        with true by (symmetry; apply copying_true; auto).
      split; intros; [apply memcpy_inside | apply memcpy_outside]; assumption.
    + intros Hno. apply copying_false in Hno. rewrite Hno. reflexivity.
  - intros fd tx_buf rx_buf len [cc m s] s1 s2 p r func checked wanted run H1 H2.
    subst run. simpl in H1.
    rewrite (spi_transfer_run fd tx_buf rx_buf len cc m s s1 s2 p r H1 H2).
    simpl. split; [reflexivity |]. split.
    + intros Hb Hl Hp.
      replace (nonnull rx_buf && (0 <? len) && nonnull (to_uintptr_t p))
        with true by (symmetry; apply copying_true; auto).
      split; intros; [apply memcpy_inside | apply memcpy_outside]; assumption.
    + intros Hno. apply copying_false in Hno. rewrite Hno. reflexivity.
Qed.

(** C3, as the code has it.  [__wrap_uart_read], when cmocka accepts the
    checks of [len] and [timeout_ms] and has the values asked for: with a
    non-null [buffer], [len > 0] and a non-null injected pointer [p], it
    copies exactly [min(len, mock_len)] bytes from [p] to [buffer],
    changes no other byte, and returns that count converted to [int],
    which is the count itself whenever the count is at most [INT_MAX];
    when [buffer] is null, [len] is 0 or the injected pointer is null it
    copies nothing and returns the injected value read with
    [mock_type(int)].  [x] is the value cmocka hands over last: the mock
    length in the first case, the return value in the second. *)
Theorem uart_read_copies_clamped fd buffer len timeout_ms w s1 s2 p x :
  let func := "__wrap_uart_read" in
  let wanted := nonnull buffer && (0 <? len) in
  let copy_len := Z.min len (to_size_t x) in
  let run := __wrap_uart_read fd buffer len timeout_ms w in
  cm_checks func [("len", to_u64 len); ("timeout_ms", to_u64 timeout_ms)]
    (mem w) (cm w) = (true, s1) ->
  cm_mocks func (if wanted then 2 else 1)%nat s1
  = (Some (if wanted then [p; x] else [x]), s2) ->
  (buffer <> NULL -> 0 < len -> to_uintptr_t p <> NULL ->
   result run = Returned (to_int copy_len)
   /\ (copy_len <= INT_MAX -> result run = Returned copy_len)
   /\ (forall i, 0 <= i < copy_len ->
                 mem (final run) (buffer + i) = mem w (to_uintptr_t p + i))
   /\ (forall a, ~ (buffer <= a < buffer + copy_len) ->
                 mem (final run) a = mem w a))
  /\ (buffer = NULL \/ len <= 0 \/ to_uintptr_t p = NULL ->
      result run = Returned (to_int x) /\ mem (final run) = mem w).
Proof.
  destruct w as [cc m s]. intros func wanted copy_len run H1 H2.
  subst run. simpl in H1. split.
  - intros Hb Hl Hp.
    assert (Hw : wanted = true).
    { apply andb_true_iff. split; [apply nonnull_true, Hb | apply Z.ltb_lt, Hl]. }
    rewrite Hw in H2. apply nonnull_true in Hp.
    rewrite (uart_read_run_copy fd buffer len timeout_ms cc m s s1 s2 p x H1 Hw H2 Hp).
    simpl. fold copy_len. split; [reflexivity |]. split; [| split].
    + intros Hmax. f_equal. apply to_int_small.
      assert (0 <= to_size_t x).
      { unfold to_size_t, to_u64. apply Z.mod_pos_bound. lia. }
      unfold in_int, INT_MIN. subst copy_len. lia.
    + intros. apply memcpy_inside. assumption.
    + intros. apply memcpy_outside. assumption.
  - intros Hno. apply copying_false in Hno.
    rewrite (uart_read_run_mocked fd buffer len timeout_ms cc m s s1 s2 p x H1 H2 Hno).
    split; reflexivity.
Qed.

(** C5, as the code has it.  The three [close] stubs return the constant
    0 on every call and ask cmocka for nothing.  The seven stubs
    [i2c_open], [i2c_write], [i2c_read], [uart_open], [uart_write],
    [spi_open] and [spi_transfer] return, whenever they return, the value
    read last with [mock_type(int)] for their own function, and
    [__wrap_uart_read] returns either such a value or the count of bytes
    it copied; the [open] stubs do return as soon as cmocka has a value
    for them. *)
Theorem stub_return_values :
  (forall fd w,
      __wrap_i2c_close fd w
      = mk_Run (Returned 0)
               (mk_World (incr_i2c_close (counts w)) (mem w) (cm w)) [])
  /\ (forall fd w,
      __wrap_uart_close fd w
      = mk_Run (Returned 0)
               (mk_World (incr_uart_close (counts w)) (mem w) (cm w)) [])
  /\ (forall fd w,
      __wrap_spi_close fd w
      = mk_Run (Returned 0)
               (mk_World (incr_spi_close (counts w)) (mem w) (cm w)) [])
  /\ (forall bus addr,
      returns_mocked "__wrap_i2c_open" (__wrap_i2c_open bus addr))
  /\ (forall fd cmd data data_len,
      returns_mocked "__wrap_i2c_write" (__wrap_i2c_write fd cmd data data_len))
  /\ (forall fd cmd rx_buffer rx_len,
      returns_mocked "__wrap_i2c_read" (__wrap_i2c_read fd cmd rx_buffer rx_len))
  /\ (forall device baudrate,
      returns_mocked "__wrap_uart_open" (__wrap_uart_open device baudrate))
  /\ (forall fd data len,
      returns_mocked "__wrap_uart_write" (__wrap_uart_write fd data len))
  /\ (forall device mode speed_hz,
      returns_mocked "__wrap_spi_open" (__wrap_spi_open device mode speed_hz))
  /\ (forall fd tx_buf rx_buf len,
      returns_mocked "__wrap_spi_transfer" (__wrap_spi_transfer fd tx_buf rx_buf len))
  /\ (forall fd buffer len timeout_ms,
      returns_with
        (fun tail r => mocked_value "__wrap_uart_read" tail r
                       \/ copied_count "__wrap_uart_read" len tail r)
        (__wrap_uart_read fd buffer len timeout_ms))
  /\ (forall bus addr cc m s s' v,
      cm_mock "__wrap_i2c_open" s = (Some v, s') ->
      result (__wrap_i2c_open bus addr (mk_World cc m s)) = Returned (to_int v))
  /\ (forall device baudrate cc m s s' v,
      cm_mock "__wrap_uart_open" s = (Some v, s') ->
      result (__wrap_uart_open device baudrate (mk_World cc m s))
      = Returned (to_int v))
  /\ (forall device mode speed_hz cc m s s' v,
      cm_mock "__wrap_spi_open" s = (Some v, s') ->
      result (__wrap_spi_open device mode speed_hz (mk_World cc m s))
      = Returned (to_int v)).
Proof.
  repeat match goal with |- _ /\ _ => split end;
    try (intros; reflexivity);
    try (intros; unfold_stubs;
         repeat first [ apply returns_mocked_mock_type_int
                      | apply returns_mocked_bind; intros ];
         fail).
  - (* uart_read *)
    intros fd buffer len timeout_ms. unfold_stubs.
    do 3 (apply returns_with_bind; intros _).
    destruct (nonnull buffer && (0 <? len)).
    + intros [cc m s] r. unfold mock_ptr_type. rewrite bind_assoc.
      destruct (cm_mock "__wrap_uart_read" s) as [[p |] s'] eqn:E1;
        [erewrite run_mock_some by eassumption
        | erewrite run_mock_none by eassumption; discriminate].
      rewrite run_ret.
      destruct (nonnull (to_uintptr_t p)) eqn:Hp.
      * unfold mock_type_size_t. rewrite bind_assoc.
        destruct (cm_mock "__wrap_uart_read" s') as [[ml |] s''] eqn:E2;
          [erewrite run_mock_some by eassumption
          | erewrite run_mock_none by eassumption; discriminate].
        rewrite run_ret. cbv zeta. rewrite run_memcpy, min_as_conditional.
        unfold ret. simpl. intros H. injection H as <-.
        exists [], [EvMock "__wrap_uart_read" p; EvMock "__wrap_uart_read" ml].
        split; [reflexivity |]. right. exists p, ml.
        split; [reflexivity |]. split; [apply nonnull_true, Hp | reflexivity].
      * unfold mock_type_int.
        destruct (cm_mock "__wrap_uart_read" s') as [[v |] s''] eqn:E2;
          [erewrite run_mock_some by eassumption
          | erewrite run_mock_none by eassumption; discriminate].
        unfold ret. simpl. intros H. injection H as <-.
        exists [EvMock "__wrap_uart_read" p], [EvMock "__wrap_uart_read" v].
        split; [reflexivity |]. left. exists v. split; reflexivity.
    + eapply returns_with_weaken; [| apply returns_mocked_mock_type_int].
      intros tail r H. left. exact H.
  - intros bus addr cc m s s' v H. rewrite (i2c_open_run _ _ _ _ _ _ _ H). reflexivity.
  - intros device baudrate cc m s s' v H.
    rewrite (uart_open_run _ _ _ _ _ _ _ H). reflexivity.
  - intros device mode speed_hz cc m s s' v H.
    rewrite (spi_open_run _ _ _ _ _ _ _ _ H). reflexivity.
Qed.

Lemma never_checks_fd (c : call) : never_checks "fd" (run_call c).
Proof.
  destruct c; cbn [run_call]; unfold_stubs;
    autounfold with checks; auto 30 with checks.
Qed.

(** C7. The parameter checks of the write-direction stubs, in order:
    [__wrap_i2c_write] checks [cmd], then [data_len], then [data] when
    [data] is non-null and [data_len > 0]; [__wrap_uart_write] checks
    [len], then [data] under the same condition on [len];
    [__wrap_spi_transfer] checks [len], then [tx_buf] when [tx_buf] is
    non-null and [len > 0].  A call that returns has made exactly these
    checks; a call cut short by cmocka has made the first few of them.
    None of the eleven stubs ever checks a parameter named [fd].  When
    cmocka accepts each check and has the values asked for, the call
    returns and has made all of them. *)
Theorem write_stubs_check_parameters :
  (forall fd cmd data data_len,
      let func := "__wrap_i2c_write" in
      checks_exactly
        ([EvCheck func "cmd" (to_u64 cmd);
          EvCheck func "data_len" (to_u64 data_len)]
           ++ (if nonnull data && (0 <? data_len)
               then [EvCheck func "data" (to_u64 (to_uintptr_t data))]
               else []))
        (__wrap_i2c_write fd cmd data data_len))
  /\ (forall fd data len,
      let func := "__wrap_uart_write" in
      checks_exactly
        ([EvCheck func "len" (to_u64 len)]
           ++ (if nonnull data && (0 <? len)
               then [EvCheck func "data" (to_u64 (to_uintptr_t data))]
               else []))
        (__wrap_uart_write fd data len))
  /\ (forall fd tx_buf rx_buf len,
      let func := "__wrap_spi_transfer" in
      checks_exactly
        ([EvCheck func "len" (to_u64 len)]
           ++ (if nonnull tx_buf && (0 <? len)
               then [EvCheck func "tx_buf" (to_u64 (to_uintptr_t tx_buf))]
               else []))
        (__wrap_spi_transfer fd tx_buf rx_buf len))
  /\ (forall c : call, never_checks "fd" (run_call c))
  /\ (forall fd cmd data data_len w s1 s2 r,
      let func := "__wrap_i2c_write" in
      let checked := nonnull data && (0 <? data_len) in
      let run := __wrap_i2c_write fd cmd data data_len w in
      cm_checks func
        ([("cmd", to_u64 cmd); ("data_len", to_u64 data_len)]
           ++ (if checked then [("data", to_u64 (to_uintptr_t data))] else []))
        (mem w) (cm w) = (true, s1) ->
      cm_mocks func 1 s1 = (Some [r], s2) ->
      result run = Returned (to_int r)
      /\ checks_of (emitted run)
         = [EvCheck func "cmd" (to_u64 cmd);
            EvCheck func "data_len" (to_u64 data_len)]
             ++ (if checked
                 then [EvCheck func "data" (to_u64 (to_uintptr_t data))]
                 else []))
  /\ (forall fd data len w s1 s2 r,
      let func := "__wrap_uart_write" in
      let checked := nonnull data && (0 <? len) in
      let run := __wrap_uart_write fd data len w in
      cm_checks func
        ([("len", to_u64 len)]
           ++ (if checked then [("data", to_u64 (to_uintptr_t data))] else []))
        (mem w) (cm w) = (true, s1) ->
      cm_mocks func 1 s1 = (Some [r], s2) ->
      result run = Returned (to_int r)
      /\ checks_of (emitted run)
         = [EvCheck func "len" (to_u64 len)]
             ++ (if checked
                 then [EvCheck func "data" (to_u64 (to_uintptr_t data))]
                 else []))
  /\ (forall fd tx_buf rx_buf len w s1 s2 p r,
      let func := "__wrap_spi_transfer" in
      let checked := nonnull tx_buf && (0 <? len) in
      let wanted := nonnull rx_buf && (0 <? len) in
      let run := __wrap_spi_transfer fd tx_buf rx_buf len w in
      cm_checks func
        ([("len", to_u64 len)]
           ++ (if checked then [("tx_buf", to_u64 (to_uintptr_t tx_buf))] else []))
        (mem w) (cm w) = (true, s1) ->
      cm_mocks func (if wanted then 2 else 1)%nat s1
      = (Some (if wanted then [p; r] else [r]), s2) ->
      result run = Returned (to_int r)
      /\ checks_of (emitted run)
         = [EvCheck func "len" (to_u64 len)]
             ++ (if checked
                 then [EvCheck func "tx_buf" (to_u64 (to_uintptr_t tx_buf))]
                 else [])).
Proof.
  repeat match goal with |- _ /\ _ => split end.
  - intros fd cmd data data_len func. subst func. unfold_stubs.
    destruct (nonnull data && (0 <? data_len)); solve_checks.
  - intros fd data len func. subst func. unfold_stubs.
    destruct (nonnull data && (0 <? len)); solve_checks.
  - intros fd tx_buf rx_buf len func. subst func. unfold_stubs.
    destruct (nonnull tx_buf && (0 <? len));
      destruct (nonnull rx_buf && (0 <? len)); solve_checks.
  - apply never_checks_fd.
  - intros fd cmd data data_len [cc m s] s1 s2 r func checked run H1 H2.
    subst run. simpl in H1.
    rewrite (i2c_write_run fd cmd data data_len cc m s s1 s2 r H1 H2).
    split; [reflexivity |]. subst checked. simpl.
    destruct (nonnull data && (0 <? data_len)); reflexivity.
  - intros fd data len [cc m s] s1 s2 r func checked run H1 H2.
    subst run. simpl in H1.
    rewrite (uart_write_run fd data len cc m s s1 s2 r H1 H2).
    split; [reflexivity |]. subst checked. simpl.
    destruct (nonnull data && (0 <? len)); reflexivity.
  - intros fd tx_buf rx_buf len [cc m s] s1 s2 p r func checked wanted run H1 H2.
    subst run. simpl in H1.
    rewrite (spi_transfer_run fd tx_buf rx_buf len cc m s s1 s2 p r H1 H2).
    split; [reflexivity |]. subst checked wanted. simpl.
    destruct (nonnull tx_buf && (0 <? len));
      destruct (nonnull rx_buf && (0 <? len)); reflexivity.
Qed.

End Claims.

(* ================================================================= *)
(** ** The claims on concrete runs *)

Lemma wrap_call_increments_own_counter_witness :
  get C_uart_write
      (counts (final (run_call (Call_uart_write 3 0 0) (sample_world fifo_empty))))
  = 7 + 1.
Proof.
  apply (proj2 (proj2 (wrap_call_increments_own_counter
                         (Call_uart_write 3 0 0) C_uart_write
                         (sample_world fifo_empty)))).
  simpl. unfold INT_MIN, INT_MAX. lia.
Defined.

Lemma mock_function_called_unknown_witness :
  ~ In "i2c_flush" known_names
  /\ mock_function_called "i2c_flush" 0 (sample_world fifo_empty)
     = mk_Run (Returned false) (sample_world fifo_empty)
              [EvPrintf (unknown_function_warning "i2c_flush")].
Proof.
  assert (H : ~ In "i2c_flush" known_names).
  { simpl. intros H. repeat (destruct H as [H | H]; [discriminate H |]). exact H. }
  split; [exact H |].
  apply (mock_function_called_unknown "i2c_flush" 0 (sample_world fifo_empty) H).
Defined.

Lemma mock_init_reset_equivalent_witness :
  In "spi_open" known_names
  /\ result (mock_function_called "spi_open" 0
               (final (mock_init (sample_world fifo_empty))))
     = Returned true.
Proof.
  assert (H : In "spi_open" known_names) by (simpl; tauto).
  split; [exact H |].
  exact (proj1 (proj1 (proj2 (proj2 (proj2
           (mock_init_reset_equivalent (sample_world fifo_empty)))))
           "spi_open" H)).
Defined.

Lemma read_stubs_copy_unclamped_witness :
  let run := __wrap_i2c_read 3 16 4096 4 (sample_world i2c_read_script) in
  result run = Returned 0
  /\ forall i, 0 <= i < 4 -> mem (final run) (4096 + i) = ramp_memory (8192 + i).
Proof.
  intros run.
  edestruct (proj1 (read_stubs_copy_unclamped (S:=fifo))
               3 16 4096 4 (sample_world i2c_read_script))
    as (Hr & Hc & _).
  - vm_compute. reflexivity.
  - vm_compute. reflexivity.
  - split; [exact Hr |].
    apply Hc; [discriminate | lia | discriminate].
Defined.

Lemma uart_read_copies_clamped_witness :
  let run := __wrap_uart_read 3 4096 4 100 (sample_world uart_read_script) in
  result run = Returned 2
  /\ forall i, 0 <= i < 2 -> mem (final run) (4096 + i) = ramp_memory (8192 + i).
Proof.
  intros run.
  edestruct (uart_read_copies_clamped (S:=fifo)
               3 4096 4 100 (sample_world uart_read_script))
    as [Hcopy _].
  - vm_compute. reflexivity.
  - vm_compute. reflexivity.
  - destruct Hcopy as (_ & Hr & Hc & _); [discriminate | lia | discriminate |].
    split; [apply Hr; discriminate | exact Hc].
Defined.

(** C3 as stated fails once the count no longer fits in [int]: with
    [len] and the mock length both 2^31, the stub copies 2^31 bytes and
    returns [INT_MIN]. *)
Lemma uart_read_count_not_returned :
  let run :=
    __wrap_uart_read 3 4096 (2 ^ 31) 100 (sample_world uart_read_2g_script) in
  result run = Returned (-2147483648)
  /\ emitted run
     = [EvCheck "__wrap_uart_read" "len" (2 ^ 31);
        EvCheck "__wrap_uart_read" "timeout_ms" 100;
        EvMock "__wrap_uart_read" (2 ^ 32);
        EvMock "__wrap_uart_read" (2 ^ 31)]
  /\ Z.min (2 ^ 31) (to_size_t (2 ^ 31)) = 2147483648
  /\ result run <> Returned (Z.min (2 ^ 31) (to_size_t (2 ^ 31))).
Proof.
  intros run. subst run.
  split; [vm_compute; reflexivity |].
  split; [vm_compute; reflexivity |].
  split; [vm_compute; reflexivity |].
  vm_compute. discriminate.
Qed.

Lemma stub_return_values_witness :
  result (__wrap_i2c_open 0 80 (sample_world i2c_open_script)) = Returned 5.
Proof.
  destruct (stub_return_values (S:=fifo))
    as (_ & _ & _ & _ & _ & _ & _ & _ & _ & _ & _ & Hopen & _).
  apply (Hopen 0 80 sample_counts ramp_memory i2c_open_script fifo_empty 5).
  reflexivity.
Defined.

(** C5 as stated fails for the [close] stubs: a test that queues 7 as the
    return value of [i2c_close] gets 0, and the 7 stays queued. *)
Lemma i2c_close_ignores_injected_value :
  __wrap_i2c_close 3 (sample_world i2c_close_script)
  = mk_Run (Returned 0)
      (mk_World (incr_i2c_close sample_counts) ramp_memory i2c_close_script) []
  /\ cm_mock "__wrap_i2c_close" i2c_close_script = (Some 7, fifo_empty)
  /\ ~ returns_mocked (S:=fifo) "__wrap_i2c_close" (__wrap_i2c_close 3).
Proof.
  split; [reflexivity |]. split; [reflexivity |].
  intros H.
  destruct (H (sample_world i2c_close_script) 0 eq_refl)
    as (evs & tail & Hev & v & -> & _).
  simpl in Hev. destruct evs; discriminate Hev.
Qed.

Lemma write_stubs_check_parameters_witness :
  let run := __wrap_i2c_write 3 1 4096 2 (sample_world i2c_write_script) in
  result run = Returned 0
  /\ checks_of (emitted run)
     = [EvCheck "__wrap_i2c_write" "cmd" 1;
        EvCheck "__wrap_i2c_write" "data_len" 2;
        EvCheck "__wrap_i2c_write" "data" 4096].
Proof.
  intros run.
  edestruct (proj1 (proj2 (proj2 (proj2 (proj2
               (write_stubs_check_parameters (S:=fifo))))))
               3 1 4096 2 (sample_world i2c_write_script))
    as (Hr & Hc).
  - vm_compute. reflexivity.
  - vm_compute. reflexivity.
  - split; [exact Hr | exact Hc].
Defined.

(** *** test_template.c *)

(** C6 as stated fails: the table registered in [main] is not empty; a
    runner that counts what it is handed counts seven tests. *)
Lemma test_table_not_empty :
  TestTemplate.tests <> []
  /\ TestTemplate.main counting_runner = 7.
Proof. split; [discriminate | reflexivity]. Qed.

(** C6, as the code has it.  [main] hands the runner a table of seven
    placeholder tests, in the order of the source; every entry carries
    its function under its own name with [test_setup] and [test_teardown]
    as hooks and no initial state, and the group runs between
    [global_setup] and [global_teardown].  Every placeholder body passes
    and every hook returns 0. *)
Theorem test_table_contents :
  map TestTemplate.name TestTemplate.tests
  = [ "test_init_success"; "test_init_failure";
      "test_function1_success"; "test_function2_success";
      "test_function3_error_handling";
      "test_write_error"; "test_read_error" ]
  /\ Forall (fun t =>
               TestTemplate.name t = TestTemplate.test_name (TestTemplate.test_func t)
               /\ TestTemplate.setup_func t = Some TestTemplate.fn_test_setup
               /\ TestTemplate.teardown_func t = Some TestTemplate.fn_test_teardown
               /\ TestTemplate.initial_state t = NULL)
            TestTemplate.tests
  /\ (forall runner,
        TestTemplate.main runner
        = runner TestTemplate.tests
                 (Some TestTemplate.fn_global_setup)
                 (Some TestTemplate.fn_global_teardown))
  /\ (forall f state, TestTemplate.test_body f state = Returned tt)
  /\ (forall f state, TestTemplate.fixture_body f state = 0).
Proof.
  split; [reflexivity |]. split.
  - repeat constructor.
  - split; [reflexivity |]. split; intros f state; destruct f; reflexivity.
Qed.

(* ================================================================= *)
(** ** Further properties of the stubs *)

(** *** Machine integers *)

Lemma to_int_mod (x : Z) : to_int x mod 2 ^ 32 = x mod 2 ^ 32.
Proof.
  unfold to_int.
  rewrite Zminus_mod, Z.mod_mod by lia.
  rewrite <- Zminus_mod. f_equal. lia.
Qed.

Lemma to_int_congr (x y : Z) : x mod 2 ^ 32 = y mod 2 ^ 32 -> to_int x = to_int y.
Proof.
  intros H. unfold to_int. f_equal.
  rewrite (Zplus_mod x), (Zplus_mod y), H. reflexivity.
Qed.

Lemma int_incr_to_int (x : Z) : int_incr (to_int x) = to_int (x + 1).
Proof.
  unfold int_incr. apply to_int_congr.
  rewrite (Zplus_mod (to_int x)), to_int_mod, <- Zplus_mod. reflexivity.
Qed.

Lemma to_int_to_u64 (v : Z) : to_int (to_u64 v) = to_int v.
Proof.
  apply to_int_congr. unfold to_u64.
  apply Z.mod_mod_divide. exists (2 ^ 32). reflexivity.
Qed.

Lemma iter_int_incr (n : nat) (x : Z) :
  Nat.iter n int_incr (to_int x) = to_int (x + Z.of_nat n).
Proof.
  induction n as [| n IH].
  - simpl. f_equal. lia.
  - rewrite Nat.iter_succ, IH, int_incr_to_int. f_equal. lia.
Qed.

Section FurtherProperties.

Context {S : Type} {CM : CMocka S}.

Implicit Types (w : World S).

(** *** Where a computation stores *)

Lemma writes_within_ret {A} P (a : A) : writes_within (S:=S) P (ret a).
Proof. intros w x Hx. reflexivity. Qed.

Lemma writes_within_incr P f : writes_within (S:=S) P (modify_counts f).
Proof. intros w x Hx. reflexivity. Qed.

Lemma writes_within_mock P func : writes_within P (_mock func).
Proof.
  intros w x Hx. unfold _mock.
  destruct (cm_mock func (cm w)) as [[v |] s']; reflexivity.
Qed.

Lemma writes_within_check P func param v :
  writes_within P (_check_expected func param v).
Proof.
  intros w x Hx. unfold _check_expected.
  destruct (cm_check_expected func param v (mem w) (cm w)); reflexivity.
Qed.

Lemma writes_within_memcpy (P : Z -> Prop) dst src n :
  (forall x, dst <= x < dst + n -> P x) ->
  writes_within (S:=S) P (do_memcpy dst src n).
Proof.
  intros HP w x Hx. simpl. apply memcpy_outside. intros Hin. apply Hx, HP, Hin.
Qed.

Lemma writes_within_bind {A B} P (m : M S A) (k : A -> M S B) :
  writes_within P m -> (forall a, writes_within P (k a)) ->
  writes_within P (bind m k).
Proof.
  intros Hm Hk w x Hx. unfold bind.
  destruct (result (m w)) as [a |]; simpl.
  - rewrite (Hk a _ x Hx). apply Hm, Hx.
  - apply Hm, Hx.
Qed.

Lemma writes_within_if {A} P (b : bool) (m1 m2 : M S A) :
  writes_within P m1 -> writes_within P m2 ->
  writes_within P (if b then m1 else m2).
Proof. destruct b; auto. Qed.

Lemma clamp_le (len mock_len : Z) :
  (if len <? mock_len then len else mock_len) <= len.
Proof. destruct (Z.ltb_spec len mock_len); lia. Qed.

Ltac solve_writes :=
  repeat first
    [ apply writes_within_ret
    | apply writes_within_incr
    | apply writes_within_mock
    | apply writes_within_check
    | apply writes_within_memcpy
    | apply writes_within_if
    | apply writes_within_bind; [| intros ?; cbv zeta] ].

(** X1. No stub stores outside the receive buffer it was handed:
    whatever cmocka answers and however the call ends, every byte outside
    [rx_buffer .. rx_buffer + rx_len) (for [uart_read] and
    [spi_transfer], outside their buffer and [len]) is as it was before
    the call, and the eight stubs without a receive buffer store
    nothing. *)
Theorem stubs_store_only_in_rx_buffer (c : call) w (a : Z) :
  ~ rx_region c a -> mem (final (run_call c w)) a = mem w a.
Proof.
  revert w a. change (writes_within (rx_region c) (run_call c)).
  destruct c; cbn [run_call rx_region]; unfold_stubs; unfold_macros;
    solve_writes; try (intros x Hx; exact Hx).
  intros x Hx. cbn [rx_region].
  match type of Hx with
  | context [if ?l <? ?ml then _ else _] => pose proof (clamp_le l ml)
  end. lia.
Qed.

(** *** How many queued values a computation takes *)

Lemma mocks_of_app (e1 e2 : list event) :
  mocks_of (e1 ++ e2) = mocks_of e1 ++ mocks_of e2.
Proof. apply filter_app. Qed.

Lemma takes_ret {A} (a : A) : takes (S:=S) 0 (ret a).
Proof. intros w. reflexivity. Qed.

Lemma takes_incr f : takes (S:=S) 0 (modify_counts f).
Proof. intros w. reflexivity. Qed.

Lemma takes_memcpy dst src n : takes (S:=S) 0 (do_memcpy dst src n).
Proof. intros w. reflexivity. Qed.

Lemma takes_check func param v : takes 0 (_check_expected func param v).
Proof.
  intros w. unfold _check_expected.
  destruct (cm_check_expected func param v (mem w) (cm w)) as [[|] s'];
    simpl; auto.
Qed.

Lemma takes_mock func : takes 1 (_mock func).
Proof.
  intros w. unfold _mock.
  destruct (cm_mock func (cm w)) as [[v |] s']; simpl; auto.
Qed.

Lemma takes_bind {A B} (n n1 n2 : nat) (m : M S A) (k : A -> M S B) :
  takes n1 m -> (forall a, takes n2 (k a)) -> n = (n1 + n2)%nat ->
  takes n (bind m k).
Proof.
  intros Hm Hk -> w. unfold bind. specialize (Hm w).
  destruct (result (m w)) as [a |]; simpl.
  - specialize (Hk a (final (m w))).
    destruct (result (k a (final (m w))));
      rewrite mocks_of_app, length_app; lia.
  - lia.
Qed.

Lemma takes_if {A} (n : nat) (b : bool) (m1 m2 : M S A) :
  takes n m1 -> takes n m2 -> takes n (if b then m1 else m2).
Proof. destruct b; auto. Qed.

Ltac solve_takes :=
  cbv iota zeta;
  first
    [ apply takes_ret
    | apply takes_incr
    | apply takes_memcpy
    | apply takes_check
    | apply takes_mock
    | eapply takes_if; solve_takes
    | eapply takes_bind;
      [ solve_takes | intros; solve_takes | simpl; reflexivity ] ].

Lemma run_call_takes (c : call) : takes (values_taken c) (run_call c).
Proof.
  destruct c; cbn [run_call values_taken]; unfold_stubs; unfold_macros;
    try solve_takes;
    match goal with
    | |- context [nonnull ?b && (0 <? ?l)] => destruct (nonnull b && (0 <? l))
    end; solve_takes.
Qed.

(** X2. What a test has to queue with [will_return]: a call that returns
    has taken exactly [values_taken] values from cmocka (none for the
    [close] stubs; one for the [open], [write] and buffer-less calls; two
    for a read or transfer that brings a non-null receive buffer and a
    length above 0), and a call in which the test is failed has taken no
    more than that. *)
Theorem stub_takes_queued_values (c : call) w :
  (forall r, result (run_call c w) = Returned r ->
             List.length (mocks_of (emitted (run_call c w))) = values_taken c)
  /\ (List.length (mocks_of (emitted (run_call c w))) <= values_taken c)%nat.
Proof.
  pose proof (run_call_takes c w) as H.
  destruct (result (run_call c w)) as [r |]; split.
  - intros r' _. exact H.
  - rewrite H. apply Nat.le_refl.
  - discriminate.
  - exact H.
Qed.

(** *** The checks of every stub *)

Ltac collect_checks :=
  unfold_macros; cbv beta iota zeta;
  first
    [ apply checks_exactly_ret
    | apply checks_exactly_incr
    | apply checks_exactly_memcpy
    | apply checks_exactly_mock
    | apply checks_exactly_check
    | eapply checks_exactly_if; collect_checks
    | eapply checks_exactly_bind;
      [ collect_checks | intros; collect_checks | simpl; reflexivity ] ].

(** X3. The parameter checks of each of the eleven stubs are those of
    [checks_asked], in that order: all of them when the call returns, the
    first few when cmocka fails the test.  So [i2c_read] checks [cmd] and
    [rx_len], [uart_read] checks [len] and [timeout_ms], the [open] and
    [close] stubs check nothing, and no stub checks a receive-buffer
    pointer. *)
Theorem stub_checks (c : call) : checks_exactly (check_events c) (run_call c).
Proof.
  destruct c; unfold check_events, checks_asked, func_of, run_call;
    unfold_stubs;
    repeat match goal with
      | |- context [nonnull ?b && (0 <? ?l)] => destruct (nonnull b && (0 <? l))
      end;
    cbn [map app fst snd]; collect_checks.
Qed.

(** *** Counting calls *)

Lemma counts_run_calls (cs : list call) w (g : counter) :
  get g (counts (run_calls cs w))
  = Nat.iter (calls_to g cs) int_incr (get g (counts w)).
Proof.
  revert w. induction cs as [| c cs IH]; intros w; [reflexivity |].
  simpl run_calls. rewrite IH, counts_run_call, get_incr_of.
  unfold calls_to. simpl filter.
  destruct (counter_eqb (counter_of c) g); [| reflexivity].
  simpl List.length. rewrite Nat.iter_succ_r. reflexivity.
Qed.

Lemma mock_function_called_name_of (g : counter) (n : Z) w :
  mock_function_called (name_of g) n w
  = mk_Run (Returned (get g (counts w) =? n)) w [].
Proof. destruct g; reflexivity. Qed.

(** X4. The counters count calls.  After [mock_reset_counters] and any
    sequence of intercepted calls (whatever their arguments, whatever
    cmocka answers, whether each returns or fails its test), the counter
    of a stub holds the number of calls made to that stub, as an [int];
    as long as that number is at most [INT_MAX],
    [mock_function_called] with the stub's name is true for that number
    and for no other. *)
Theorem counters_count_calls (cs : list call) (g : counter) w0 :
  let w := run_calls cs (final (mock_reset_counters w0)) in
  let k := Z.of_nat (calls_to g cs) in
  get g (counts w) = to_int k
  /\ (k <= INT_MAX ->
      forall n, result (mock_function_called (name_of g) n w) = Returned true
                <-> n = k).
Proof.
  intros w k.
  assert (Hget : get g (counts w) = to_int k).
  { subst w k. rewrite counts_run_calls.
    change (get g (counts (final (mock_reset_counters w0))))
      with (get g zero_counts).
    rewrite get_zero_counts. change 0 with (to_int 0) at 1.
    rewrite iter_int_incr. reflexivity. }
  split; [exact Hget |].
  intros Hk n. rewrite mock_function_called_name_of, Hget. simpl.
  rewrite to_int_small by (unfold in_int, INT_MIN; subst k; lia).
  split.
  - intros H. injection H as H. symmetry. apply Z.eqb_eq, H.
  - intros ->. rewrite Z.eqb_refl. reflexivity.
Qed.

(** *** Return values through cmocka's integer type *)

Lemma run_call_returns_mocked (c : call) :
  returns_mock_type_int c = true -> returns_mocked (func_of c) (run_call c).
Proof.
  destruct c; try discriminate; intros _;
    cbn [run_call func_of]; unfold_stubs;
    repeat first [ apply returns_mocked_mock_type_int
                 | apply returns_mocked_bind; intros ].
Qed.

(** X5. A return code survives the trip through cmocka.  For the seven
    stubs that end in [return mock_type(int);]: when the value cmocka
    handed over last is an [int] [v], negative or not, as [will_return]
    stores it in its 64-bit unsigned type, the stub returns exactly
    [v]. *)
Theorem injected_int_is_returned (c : call) w (v : Z) (evs : list event) :
  returns_mock_type_int c = true ->
  in_int v ->
  result (run_call c w) <> TestFailed ->
  emitted (run_call c w)
  = evs ++ [EvMock (func_of c) (cast_to_largest_integral_type v)] ->
  result (run_call c w) = Returned v.
Proof.
  intros Hc Hv Hr Hev.
  destruct (result (run_call c w)) as [r |] eqn:Er; [| contradiction].
  destruct (run_call_returns_mocked c Hc w r Er) as (evs' & tail & E & v' & -> & ->).
  rewrite Hev in E. apply app_inj_tail in E. destruct E as [_ E].
  injection E as <-. f_equal.
  unfold cast_to_largest_integral_type. rewrite to_int_to_u64.
  apply to_int_small, Hv.
Qed.

(** *** Running a stub against every answer cmocka can give *)

Lemma run_check_fail {A} func param v (k : unit -> M S A)
    cc (m : memory) (s s' : S) :
  cm_check_expected func param v m s = (false, s') ->
  bind (_check_expected func param v) k (mk_World cc m s)
  = mk_Run TestFailed (mk_World cc m s') [EvCheck func param v].
Proof. intros E. unfold bind, _check_expected. simpl. rewrite E. reflexivity. Qed.

(** One step of a stub: a statement that cannot fail, or a request to
    cmocka with both of its answers. *)
Ltac exec_step :=
  first
    [ rewrite run_incr
    | rewrite bind_assoc
    | rewrite run_ret
    | rewrite run_memcpy
    | rewrite emit_mk_Run
    | match goal with
      | |- context [bind (_check_expected ?f ?p ?v) _ (mk_World _ ?m ?s)] =>
          let E := fresh "Echeck" in
          destruct (cm_check_expected f p v m s) as [[|] ?] eqn:E;
          [ erewrite run_check_pass by exact E
          | erewrite run_check_fail by exact E ]
      | |- context [bind (_mock ?f) _ (mk_World _ _ ?s)] =>
          let E := fresh "Emock" in
          destruct (cm_mock f s) as [[?|] ?] eqn:E;
          [ erewrite run_mock_some by exact E
          | erewrite run_mock_none by exact E ]
      | |- context [if nonnull ?x then _ else _] =>
          destruct (nonnull x) eqn:?
      end ];
  cbn [cm_checks cm_mocks option_map fst snd].

Ltac exec_stub :=
  unfold_stubs; unfold_macros;
  repeat match goal with
    | |- context [nonnull ?b && (0 <? ?l)] =>
        destruct (nonnull b && (0 <? l)) eqn:?
    end;
  cbn [app cm_checks cm_mocks]; cbv zeta;
  repeat exec_step;
  unfold ret, emit; cbn [result final emitted counts mem cm app].

(** X6. A stub returns to its caller exactly when cmocka serves the
    call: it accepts, in order, every check the stub asks for, and then
    holds as many queued values as the stub takes.  In every other case
    the test is failed inside the stub. *)
Theorem stub_returns_iff_served (c : call) w :
  (exists r, result (run_call c w) = Returned r)
  <-> cmocka_serves c (mem w) (cm w) = true.
Proof.
  destruct w as [cc m s]. cbn [mem cm].
  destruct c; unfold cmocka_serves, checks_asked, values_taken, func_of, run_call;
    exec_stub;
    (split;
     [ intros [r Hr]; first [discriminate Hr | reflexivity]
     | intros H; first [discriminate H | eexists; reflexivity] ]).
Qed.

(** X7. A rejected parameter stops the stub at once.  When cmocka
    rejects one of the checks a call asks for, the test is failed inside
    the stub; the stub has by then counted the call, but it has taken no
    queued value, has stored nothing, and leaves cmocka in the state the
    rejected check left it in. *)
Theorem rejected_check_stops_stub (c : call) w (s1 : S) :
  cm_checks (func_of c) (checks_asked c) (mem w) (cm w) = (false, s1) ->
  result (run_call c w) = TestFailed
  /\ final (run_call c w)
     = mk_World (incr_of (counter_of c) (counts w)) (mem w) s1
  /\ mocks_of (emitted (run_call c w)) = [].
Proof.
  destruct w as [cc m s]. cbn [mem cm counts].
  destruct c; unfold checks_asked, func_of, run_call, counter_of, incr_of;
    exec_stub;
    intros H; first [discriminate H | injection H as <-; repeat split].
Qed.

(** X8. [__wrap_uart_read] stores only when it returns: when the test is
    failed inside it, for whatever reason, memory is as it was before the
    call. *)
Theorem uart_read_failure_keeps_memory fd buffer len timeout_ms w :
  result (__wrap_uart_read fd buffer len timeout_ms w) = TestFailed ->
  mem (final (__wrap_uart_read fd buffer len timeout_ms w)) = mem w.
Proof.
  destruct w as [cc m s]. cbn [mem].
  exec_stub; intros H; first [discriminate H | reflexivity].
Qed.

Ltac run_to_failure :=
  unfold_stubs; unfold_macros;
  repeat first
    [ rewrite run_incr
    | rewrite bind_assoc
    | rewrite run_ret
    | rewrite run_memcpy
    | erewrite run_check_pass by eassumption
    | erewrite run_mock_some by eassumption
    | erewrite run_mock_none by eassumption
    | rewrite emit_mk_Run ].

(** X9. [__wrap_i2c_read] and [__wrap_spi_transfer] copy before they ask
    for the return value.  When cmocka accepts the checks and hands over
    a non-null data pointer but holds no return value after it, the test
    is failed inside the stub and the receive buffer has already been
    overwritten with the mock data. *)
Theorem read_stubs_copy_before_return_value :
  (forall fd cmd rx_buffer rx_len w s1 s2 s3 p,
      let func := "__wrap_i2c_read" in
      let run := __wrap_i2c_read fd cmd rx_buffer rx_len w in
      cm_checks func [("cmd", to_u64 cmd); ("rx_len", to_u64 rx_len)]
        (mem w) (cm w) = (true, s1) ->
      rx_buffer <> NULL -> 0 < rx_len ->
      cm_mock func s1 = (Some p, s2) ->
      to_uintptr_t p <> NULL ->
      cm_mock func s2 = (None, s3) ->
      result run = TestFailed
      /\ forall i, 0 <= i < rx_len ->
                   mem (final run) (rx_buffer + i) = mem w (to_uintptr_t p + i))
  /\ (forall fd tx_buf rx_buf len w s1 s2 s3 p,
      let func := "__wrap_spi_transfer" in
      let run := __wrap_spi_transfer fd tx_buf rx_buf len w in
      cm_checks func
        ([("len", to_u64 len)]
           ++ (if nonnull tx_buf && (0 <? len)
               then [("tx_buf", to_u64 (to_uintptr_t tx_buf))] else []))
        (mem w) (cm w) = (true, s1) ->
      rx_buf <> NULL -> 0 < len ->
      cm_mock func s1 = (Some p, s2) ->
      to_uintptr_t p <> NULL ->
      cm_mock func s2 = (None, s3) ->
      result run = TestFailed
      /\ forall i, 0 <= i < len ->
                   mem (final run) (rx_buf + i) = mem w (to_uintptr_t p + i)).
Proof.
  split.
  - intros fd cmd rx_buffer rx_len [cc m s] s1 s2 s3 p func run H1 Hb Hl H2 Hp H3.
    subst func run. cbn [mem cm] in *.
    assert (Hw : nonnull rx_buffer && (0 <? rx_len) = true).
    { apply andb_true_iff. split; [apply nonnull_true, Hb | apply Z.ltb_lt, Hl]. }
    apply nonnull_true in Hp. open_script.
    unfold_stubs. rewrite Hw. run_to_failure. rewrite Hp. run_to_failure.
    cbn [result final mem]. split; [reflexivity |].
    intros i Hi. apply memcpy_inside, Hi.
  - intros fd tx_buf rx_buf len [cc m s] s1 s2 s3 p func run H1 Hb Hl H2 Hp H3.
    subst func run. cbn [mem cm] in *.
    assert (Hw : nonnull rx_buf && (0 <? len) = true).
    { apply andb_true_iff. split; [apply nonnull_true, Hb | apply Z.ltb_lt, Hl]. }
    apply nonnull_true in Hp.
    unfold_stubs. rewrite Hw.
    destruct (nonnull tx_buf && (0 <? len)); cbn [app] in H1; open_script;
      run_to_failure; rewrite Hp; run_to_failure;
      cbn [result final mem]; (split; [reflexivity |]);
      intros i Hi; apply memcpy_inside, Hi.
Qed.

(** X10. The count [__wrap_uart_read] reports.  In a call that copies
    (non-null buffer, [len > 0], checks accepted, a non-null data pointer
    and a mock length handed over) with [len] at most [INT_MAX], the
    value returned is a count [n] with [0 <= n <= len] and [n] at most
    the mock length; a mock length of 0 makes the stub return 0 and
    leave every byte as it was. *)
Theorem uart_read_count_bounds fd buffer len timeout_ms w s1 s2 p mock_len :
  let func := "__wrap_uart_read" in
  let run := __wrap_uart_read fd buffer len timeout_ms w in
  cm_checks func [("len", to_u64 len); ("timeout_ms", to_u64 timeout_ms)]
    (mem w) (cm w) = (true, s1) ->
  buffer <> NULL -> 0 < len -> len <= INT_MAX ->
  cm_mocks func 2 s1 = (Some [p; mock_len], s2) ->
  to_uintptr_t p <> NULL ->
  (exists n, result run = Returned n
             /\ 0 <= n <= len /\ n <= to_size_t mock_len)
  /\ (to_size_t mock_len = 0 ->
      result run = Returned 0 /\ forall a, mem (final run) a = mem w a).
Proof.
  destruct w as [cc m s]. intros func run H1 Hb Hl Hmax H2 Hp.
  subst func run. cbn [mem cm] in *.
  assert (Hw : nonnull buffer && (0 <? len) = true).
  { apply andb_true_iff. split; [apply nonnull_true, Hb | apply Z.ltb_lt, Hl]. }
  apply nonnull_true in Hp.
  rewrite (uart_read_run_copy fd buffer len timeout_ms cc m s s1 s2 p mock_len
             H1 Hw H2 Hp).
  cbn [result final mem].
  assert (H0 : 0 <= to_size_t mock_len).
  { unfold to_size_t, to_u64. apply Z.mod_pos_bound. lia. }
  split.
  - exists (Z.min len (to_size_t mock_len)). split; [| lia].
    f_equal. apply to_int_small. unfold in_int, INT_MIN. lia.
  - intros Hz. rewrite Hz. replace (Z.min len 0) with 0 by lia.
    split; [reflexivity |].
    intros a. apply memcpy_outside. lia.
Qed.

End FurtherProperties.

(** *** test_template.c *)

(** X11. The test table and the test functions agree: each of the seven
    test functions the file declares is registered in [main] exactly
    once, and no two entries share a name. *)
Theorem every_test_registered_once :
  (forall f, In f (map TestTemplate.test_func TestTemplate.tests))
  /\ NoDup (map TestTemplate.test_func TestTemplate.tests)
  /\ NoDup (map TestTemplate.name TestTemplate.tests).
Proof.
  split; [intros f; destruct f; simpl; tauto |].
  split; repeat constructor; simpl; intuition discriminate.
Qed.

(* ================================================================= *)
(** ** The further properties on concrete runs *)

Lemma stubs_store_only_in_rx_buffer_witness :
  mem (final (run_call (Call_i2c_read 3 16 4096 4) (sample_world i2c_read_script)))
      4100
  = ramp_memory 4100.
Proof.
  apply (stubs_store_only_in_rx_buffer
           (Call_i2c_read 3 16 4096 4) (sample_world i2c_read_script) 4100).
  cbn [rx_region]. lia.
Defined.

Lemma stub_takes_queued_values_witness :
  List.length
    (mocks_of (emitted (run_call (Call_i2c_read 3 16 4096 4)
                                 (sample_world i2c_read_script))))
  = 2%nat.
Proof.
  apply (proj1 (stub_takes_queued_values
                  (Call_i2c_read 3 16 4096 4) (sample_world i2c_read_script))
               0).
  vm_compute. reflexivity.
Defined.

Lemma counters_count_calls_witness :
  result
    (mock_function_called "uart_write" 2
       (run_calls [Call_uart_write 3 0 0; Call_i2c_close 3; Call_uart_write 3 0 0]
          (final (mock_reset_counters (sample_world fifo_empty)))))
  = Returned true.
Proof.
  apply (proj2 (counters_count_calls
                  [Call_uart_write 3 0 0; Call_i2c_close 3; Call_uart_write 3 0 0]
                  C_uart_write (sample_world fifo_empty))).
  - vm_compute. discriminate.
  - reflexivity.
Defined.

Lemma injected_int_is_returned_witness :
  result (run_call (Call_uart_open 0 115200) (sample_world uart_open_error_script))
  = Returned (-1).
Proof.
  apply (injected_int_is_returned
           (Call_uart_open 0 115200) (sample_world uart_open_error_script)
           (-1) []).
  - reflexivity.
  - unfold in_int, INT_MIN, INT_MAX. lia.
  - vm_compute. discriminate.
  - vm_compute. reflexivity.
Defined.

Lemma rejected_check_stops_stub_witness :
  result (run_call (Call_i2c_write 3 1 4096 2)
                   (sample_world i2c_write_wrong_cmd_script))
  = TestFailed
  /\ mocks_of (emitted (run_call (Call_i2c_write 3 1 4096 2)
                                 (sample_world i2c_write_wrong_cmd_script)))
     = [].
Proof.
  edestruct (rejected_check_stops_stub (S:=fifo)
               (Call_i2c_write 3 1 4096 2)
               (sample_world i2c_write_wrong_cmd_script))
    as (Hr & _ & Hm).
  - vm_compute. reflexivity.
  - split; [exact Hr | exact Hm].
Defined.

Lemma uart_read_failure_keeps_memory_witness :
  mem (final (__wrap_uart_read 3 4096 4 100 (sample_world fifo_empty)))
  = ramp_memory.
Proof.
  apply (uart_read_failure_keeps_memory 3 4096 4 100 (sample_world fifo_empty)).
  vm_compute. reflexivity.
Defined.

Lemma read_stubs_copy_before_return_value_witness :
  let run :=
    __wrap_i2c_read 3 16 4096 4 (sample_world i2c_read_no_return_script) in
  result run = TestFailed
  /\ forall i, 0 <= i < 4 -> mem (final run) (4096 + i) = ramp_memory (8192 + i).
Proof.
  intros run.
  edestruct (proj1 (read_stubs_copy_before_return_value (S:=fifo))
               3 16 4096 4 (sample_world i2c_read_no_return_script))
    as (Hr & Hc).
  - vm_compute. reflexivity.
  - discriminate.
  - lia.
  - vm_compute. reflexivity.
  - vm_compute. discriminate.
  - vm_compute. reflexivity.
  - split; [exact Hr | exact Hc].
Defined.

Lemma uart_read_count_bounds_witness :
  result (__wrap_uart_read 3 4096 4 100 (sample_world uart_read_empty_script))
  = Returned 0.
Proof.
  edestruct (uart_read_count_bounds (S:=fifo)
               3 4096 4 100 (sample_world uart_read_empty_script))
    as [_ Hzero].
  - vm_compute. reflexivity.
  - discriminate.
  - lia.
  - unfold INT_MAX. lia.
  - vm_compute. reflexivity.
  - vm_compute. discriminate.
  - apply Hzero. vm_compute. reflexivity.
Defined.
